(** * Budget tracker: the persistence and aggregation core

    A shallow embedding of [budget_tracker_app.py]: the password hash, the
    two SQLite tables the program keeps, the statements it runs on them, and
    the monthly roll-up its dashboard computes from the fetched rows.

    Conventions of the model.
    - A Python [str] is a [string] holding the UTF-8 bytes of the text, so
      [pwd.encode()] is the identity on the carrier and equality of strings
      is equality of byte sequences (SQLite's default BINARY collation).
    - The [REAL] column [amount] is an IEEE-754 binary64 number ([float]);
      the sum of a group is the compensated sum pandas computes, cell by
      cell in row order.
    - pandas is a library the program imports: what [pd.to_datetime] reads
      in a column, and what [astype(str)] leaves in a cell without a date,
      are parameters ([pandas]) of the functions that call it. What is
      assumed of them is stated where it is used ([pandas_ok]).
    - The only NULL cells are those of [user_id]: the program writes no
      other.
    - SQLite rowids are unbounded integers here; the program only ever lets
      AUTOINCREMENT allocate them, one at a time.
    - A statement that fails changes nothing, and every call that writes
      ends with [conn.commit()]: a call maps the committed store to the
      next committed store, or raises.
    - [st.session_state.user_id] is passed to each scoped call explicitly. *)

From Stdlib Require Import ZArith List String Ascii Bool Lia Floats Sorted Permutation.
From Stdlib Require Import DecimalString.
Import ListNotations.

Local Open Scope string_scope.
Local Open Scope Z_scope.

(* ================================================================== *)
(** ** SHA-256 ([hashlib.sha256]) *)
(* ================================================================== *)

Module SHA256.

Definition w32 (x : Z) : Z := Z.land x 4294967295.

Definition add32 (x y : Z) : Z := w32 (x + y).

Definition rotr (n x : Z) : Z :=
  Z.lor (Z.shiftr x n) (w32 (Z.shiftl x (32 - n))).

Definition Ch (x y z : Z) : Z :=
  Z.lxor (Z.land x y) (Z.land (Z.lxor x 4294967295) z).

Definition Maj (x y z : Z) : Z :=
  Z.lxor (Z.lxor (Z.land x y) (Z.land x z)) (Z.land y z).

Definition Sigma0 (x : Z) : Z :=
  Z.lxor (Z.lxor (rotr 2 x) (rotr 13 x)) (rotr 22 x).

Definition Sigma1 (x : Z) : Z :=
  Z.lxor (Z.lxor (rotr 6 x) (rotr 11 x)) (rotr 25 x).

Definition sigma0 (x : Z) : Z :=
  Z.lxor (Z.lxor (rotr 7 x) (rotr 18 x)) (Z.shiftr x 3).

Definition sigma1 (x : Z) : Z :=
  Z.lxor (Z.lxor (rotr 17 x) (rotr 19 x)) (Z.shiftr x 10).

(** The largest [r] below [2 ^ bits] whose cube is at most [n]. *)
Fixpoint cube_root_bits (bits : nat) (n r : Z) : Z :=
  match bits with
  | O => r
  | S b =>
      let c := r + Z.shiftl 1 (Z.of_nat b) in
      cube_root_bits b n (if c * c * c <=? n then c else r)
  end.

Definition primes : list Z :=
  [2; 3; 5; 7; 11; 13; 17; 19; 23; 29; 31; 37; 41; 43; 47; 53;
   59; 61; 67; 71; 73; 79; 83; 89; 97; 101; 103; 107; 109; 113; 127; 131;
   137; 139; 149; 151; 157; 163; 167; 173; 179; 181; 191; 193; 197; 199; 211; 223;
   227; 229; 233; 239; 241; 251; 257; 263; 269; 271; 277; 281; 283; 293; 307; 311].

(** The round constants: the first 32 bits of the fractional parts of the
    cube roots of the first 64 primes. *)
Definition K : list Z :=
  Eval vm_compute in
    map (fun p => w32 (cube_root_bits 36 (Z.shiftl p 96) 0)) primes.

(** The initial hash value: the same of the square roots of the first 8. *)
Definition H0 : list Z :=
  Eval vm_compute in
    map (fun p => w32 (Z.sqrt (Z.shiftl p 64))) (firstn 8 primes).

(** Big-endian bytes of [x], [n] of them. *)
Fixpoint be_bytes (n : nat) (x : Z) : list Z :=
  match n with
  | O => []
  | S m => Z.land (Z.shiftr x (8 * Z.of_nat m)) 255 :: be_bytes m x
  end.

(** The message followed by 0x80, zero bytes up to 56 modulo 64, and the
    bit length on eight bytes. *)
Definition pad (msg : list Z) : list Z :=
  let len := Z.of_nat (List.length msg) in
  let zeros := Z.to_nat ((55 - len) mod 64) in
  msg ++ 128 :: repeat 0 zeros ++ be_bytes 8 (8 * len).

Fixpoint words (fuel : nat) (bs : list Z) : list Z :=
  match fuel, bs with
  | S f, b0 :: b1 :: b2 :: b3 :: rest =>
      (b0 * 16777216 + b1 * 65536 + b2 * 256 + b3) :: words f rest
  | _, _ => []
  end.

Fixpoint blocks (fuel : nat) (ws : list Z) : list (list Z) :=
  match fuel, ws with
  | S f, _ :: _ => firstn 16 ws :: blocks f (skipn 16 ws)
  | _, _ => []
  end.

(** The message schedule, newest word first: [rev_w] holds W[t-1], W[t-2], ... *)
Fixpoint extend (n : nat) (rev_w : list Z) : list Z :=
  match n with
  | O => rev_w
  | S m =>
      let w2 := nth 1 rev_w 0 in
      let w7 := nth 6 rev_w 0 in
      let w15 := nth 14 rev_w 0 in
      let w16 := nth 15 rev_w 0 in
      extend m (add32 (add32 (sigma1 w2) w7) (add32 (sigma0 w15) w16) :: rev_w)
  end.

Definition schedule (block : list Z) : list Z := rev (extend 48 (rev block)).

Record regs := Regs { ra : Z; rb : Z; rc : Z; rd : Z; re : Z; rf : Z; rg : Z; rh : Z }.

Definition round (r : regs) (kw : Z * Z) : regs :=
  let (k, w) := kw in
  let t1 := add32 (add32 (add32 (rh r) (Sigma1 (re r))) (Ch (re r) (rf r) (rg r)))
                  (add32 k w) in
  let t2 := add32 (Sigma0 (ra r)) (Maj (ra r) (rb r) (rc r)) in
  Regs (add32 t1 t2) (ra r) (rb r) (rc r) (add32 (rd r) t1) (re r) (rf r) (rg r).

Definition compress (h : regs) (block : list Z) : regs :=
  let r := fold_left round (combine K (schedule block)) h in
  Regs (add32 (ra h) (ra r)) (add32 (rb h) (rb r)) (add32 (rc h) (rc r))
       (add32 (rd h) (rd r)) (add32 (re h) (re r)) (add32 (rf h) (rf r))
       (add32 (rg h) (rg r)) (add32 (rh h) (rh r)).

Definition init : regs :=
  Regs (nth 0 H0 0) (nth 1 H0 0) (nth 2 H0 0) (nth 3 H0 0)
       (nth 4 H0 0) (nth 5 H0 0) (nth 6 H0 0) (nth 7 H0 0).

Definition digest_words (msg : list Z) : list Z :=
  let p := pad msg in
  let n := List.length p in
  let r := fold_left compress (blocks n (words n p)) init in
  [ra r; rb r; rc r; rd r; re r; rf r; rg r; rh r].

Definition hex_digit (d : Z) : ascii :=
  if d <? 10 then ascii_of_N (Z.to_N (48 + d)) else ascii_of_N (Z.to_N (87 + d)).

Fixpoint hex_of (n : nat) (x : Z) : string :=
  match n with
  | O => EmptyString
  | S m => String (hex_digit (Z.land (Z.shiftr x (4 * Z.of_nat m)) 15)) (hex_of m x)
  end.

Definition bytes_of (s : string) : list Z :=
  map (fun c => Z.of_N (N_of_ascii c)) (list_ascii_of_string s).

Definition hexdigest (s : string) : string :=
  fold_right (fun w acc => (hex_of 8 w ++ acc)%string) EmptyString (digest_words (bytes_of s)).

End SHA256.

(** [hash_pwd]: the hexadecimal SHA-256 digest of the encoded password. *)
Definition hash_pwd (pwd : string) : string := SHA256.hexdigest pwd.

(* ================================================================== *)
(** ** The store: two tables of [budget.db] *)
(* ================================================================== *)

(** A row of [users(id, username, password)]. *)
Record user := User { u_id : Z; u_username : string; u_password : string }.

(** A row of [transactions(id, date, category, amount[, user_id])]; the
    last column is [None] for SQL NULL. *)
Record tx := Tx {
  t_id : Z;
  t_date : string;
  t_category : string;
  t_amount : float;
  t_user_id : option Z
}.

(** A table keeps its rows in rowid order together with the AUTOINCREMENT
    counter SQLite records for it in [sqlite_sequence]. *)
Record users_table := UsersTable { users_rows : list user; users_seq : Z }.

(** [tx_has_user_id] tells whether the table already has the [user_id]
    column: a table created by an earlier version of the program has not. *)
Record tx_table := TxTable {
  tx_has_user_id : bool;
  tx_rows : list tx;
  tx_seq : Z
}.

(** The database file: each table is present or not. *)
Record db := Db { users : option users_table; transactions : option tx_table }.

Definition empty_db : db := Db None None.

(** The exceptions the modelled calls can raise. *)
Inductive error :=
| OperationalError   (* sqlite3: no such table, no such column *)
| IntegrityError     (* sqlite3: UNIQUE constraint failed *)
| ValueError         (* pandas: a date column it does not read *)
| IndexError.        (* pandas: positional indexer out of bounds *)

Inductive result (A : Type) :=
| Ok (a : A)
| Raise (e : error).
Arguments Ok {A} a.
Arguments Raise {A} e.

(** Calls thread the database and may raise. *)
Definition M (A : Type) : Type := db -> result (A * db).

Definition ret {A} (a : A) : M A := fun s => Ok (a, s).

Definition bind {A B} (m : M A) (k : A -> M B) : M B :=
  fun s => match m s with
           | Ok (a, s') => k a s'
           | Raise e => Raise e
           end.

Definition raise {A} (e : error) : M A := fun _ => Raise e.

(** [try: m except e: h]. Nothing a failed statement did is committed. *)
Definition try_except {A} (m : M A) (e : error -> bool) (h : M A) : M A :=
  fun s => match m s with
           | Ok r => Ok r
           | Raise e' => if e e' then h s else Raise e'
           end.

Declare Scope db_scope.
Delimit Scope db_scope with db.
Notation "x <- m ;; k" := (bind m (fun x => k))
  (at level 61, m at next level, right associativity) : db_scope.
Notation "m ;; k" := (bind m (fun _ => k))
  (at level 61, right associativity) : db_scope.
Local Open Scope db_scope.

Definition is_integrity_error (e : error) : bool :=
  match e with IntegrityError => true | _ => false end.

(* ------------------------------------------------------------------ *)
(** *** SQL statements of the program *)

Definition max_rowid {A} (id : A -> Z) (rows : list A) : Z :=
  fold_right (fun r m => Z.max (id r) m) 0 rows.

(** The rowid AUTOINCREMENT hands out: one more than the largest rowid the
    table has ever held. *)
Definition next_rowid {A} (id : A -> Z) (rows : list A) (seq : Z) : Z :=
  Z.max seq (max_rowid id rows) + 1.

(** [CREATE TABLE IF NOT EXISTS users(...)] *)
Definition create_table_users : M unit :=
  fun s => match users s with
           | Some _ => Ok (tt, s)
           | None => Ok (tt, Db (Some (UsersTable [] 0)) (transactions s))
           end.

(** [SELECT COUNT( * ) FROM users] *)
Definition select_count_users : M Z :=
  fun s => match users s with
           | Some t => Ok (Z.of_nat (List.length (users_rows t)), s)
           | None => Raise OperationalError
           end.

Definition username_taken (name : string) (rows : list user) : bool :=
  existsb (fun u => String.eqb (u_username u) name) rows.

(** [INSERT INTO users(username, password) VALUES(?,?)] *)
Definition insert_user (name pwd_hash : string) : M unit :=
  fun s => match users s with
           | None => Raise OperationalError
           | Some t =>
               if username_taken name (users_rows t) then Raise IntegrityError
               else
                 let i := next_rowid u_id (users_rows t) (users_seq t) in
                 Ok (tt, Db (Some (UsersTable (users_rows t ++ [User i name pwd_hash])%list i))
                            (transactions s))
           end.

(** [CREATE TABLE IF NOT EXISTS transactions(id, date, category, amount)] *)
Definition create_table_transactions : M unit :=
  fun s => match transactions s with
           | Some _ => Ok (tt, s)
           | None => Ok (tt, Db (users s) (Some (TxTable false [] 0)))
           end.

(** [PRAGMA table_info(transactions)], the column names. *)
Definition table_info_transactions : M (list string) :=
  fun s => match transactions s with
           | None => Ok ([], s)
           | Some t =>
               Ok ((["id"; "date"; "category"; "amount"]
                      ++ (if tx_has_user_id t then ["user_id"] else []))%list, s)
           end.

(** [ALTER TABLE transactions ADD COLUMN user_id INTEGER]: the new column
    is NULL in every row. *)
Definition alter_add_user_id : M unit :=
  fun s => match transactions s with
           | None => Raise OperationalError
           | Some t =>
               if tx_has_user_id t then Raise OperationalError
               else
                 let null r := Tx (t_id r) (t_date r) (t_category r) (t_amount r) None in
                 Ok (tt, Db (users s) (Some (TxTable true (map null (tx_rows t)) (tx_seq t))))
           end.

(** [UPDATE transactions SET user_id = 1 WHERE user_id IS NULL] *)
Definition backfill_user_id : M unit :=
  fun s => match transactions s with
           | None => Raise OperationalError
           | Some t =>
               if negb (tx_has_user_id t) then Raise OperationalError
               else
                 let fill r :=
                   match t_user_id r with
                   | None => Tx (t_id r) (t_date r) (t_category r) (t_amount r) (Some 1)
                   | Some _ => r
                   end in
                 Ok (tt, Db (users s) (Some (TxTable true (map fill (tx_rows t)) (tx_seq t))))
           end.

(** [SELECT id, password FROM users WHERE username=?] then [fetchone()] *)
Definition select_id_password (name : string) : M (option (Z * string)) :=
  fun s => match users s with
           | None => Raise OperationalError
           | Some t =>
               Ok (option_map (fun u => (u_id u, u_password u))
                     (find (fun u => String.eqb (u_username u) name) (users_rows t)), s)
           end.

(** [SELECT username FROM users WHERE id=?] then [fetchone()] *)
Definition select_username (user_id : Z) : M (option string) :=
  fun s => match users s with
           | None => Raise OperationalError
           | Some t =>
               Ok (option_map u_username
                     (find (fun u => u_id u =? user_id) (users_rows t)), s)
           end.

(** [UPDATE users SET password=? WHERE id=?] *)
Definition update_password (pwd_hash : string) (user_id : Z) : M unit :=
  fun s => match users s with
           | None => Raise OperationalError
           | Some t =>
               let set u :=
                 if u_id u =? user_id then User (u_id u) (u_username u) pwd_hash else u in
               Ok (tt, Db (Some (UsersTable (map set (users_rows t)) (users_seq t)))
                          (transactions s))
           end.

(** [INSERT INTO transactions(date, category, amount, user_id) VALUES(?,?,?,?)] *)
Definition insert_tx (date category : string) (amount : float) (user_id : Z) : M unit :=
  fun s => match transactions s with
           | None => Raise OperationalError
           | Some t =>
               if negb (tx_has_user_id t) then Raise OperationalError
               else
                 let i := next_rowid t_id (tx_rows t) (tx_seq t) in
                 Ok (tt, Db (users s)
                            (Some (TxTable true
                                     (tx_rows t ++ [Tx i date category amount (Some user_id)])%list
                                     i)))
           end.

Definition owned_by (user_id : Z) (r : tx) : bool :=
  match t_user_id r with
  | Some u => u =? user_id
  | None => false
  end.

(** [DELETE FROM transactions WHERE id=? AND user_id=?] *)
Definition delete_where_id_user (tx_id user_id : Z) : M unit :=
  fun s => match transactions s with
           | None => Raise OperationalError
           | Some t =>
               if negb (tx_has_user_id t) then Raise OperationalError
               else
                 let hit r := (t_id r =? tx_id) && owned_by user_id r in
                 Ok (tt, Db (users s)
                            (Some (TxTable true (filter (fun r => negb (hit r)) (tx_rows t))
                                     (tx_seq t))))
           end.

(** [ORDER BY date]: text compared byte by byte, rows of equal date kept in
    rowid order. *)
Fixpoint insert_by_date (r : tx) (l : list tx) : list tx :=
  match l with
  | [] => [r]
  | r' :: l' =>
      if String.leb (t_date r) (t_date r') then r :: l
      else r' :: insert_by_date r l'
  end.

Definition order_by_date (l : list tx) : list tx :=
  fold_right insert_by_date [] l.

(** [SELECT * FROM transactions WHERE user_id=? ORDER BY date] *)
Definition select_tx_of (user_id : Z) : M (list tx) :=
  fun s => match transactions s with
           | None => Raise OperationalError
           | Some t =>
               if negb (tx_has_user_id t) then Raise OperationalError
               else Ok (order_by_date (filter (owned_by user_id) (tx_rows t)), s)
           end.

(* ================================================================== *)
(** ** Calendar dates and their text *)
(* ================================================================== *)

(** A [datetime.date]. *)
Record date := Date { year : Z; month : Z; day : Z }.

Definition is_leap (y : Z) : bool :=
  (y mod 4 =? 0) && (negb (y mod 100 =? 0) || (y mod 400 =? 0)).

Definition days_in_month (y m : Z) : Z :=
  if m =? 2 then (if is_leap y then 29 else 28)
  else if (m =? 4) || (m =? 6) || (m =? 9) || (m =? 11) then 30
  else 31.

(** The dates [datetime.date] can hold: years 1 to 9999. *)
Definition valid_date (d : date) : bool :=
  (1 <=? year d) && (year d <=? 9999)
  && (1 <=? month d) && (month d <=? 12)
  && (1 <=? day d) && (day d <=? days_in_month (year d) (month d)).

Definition digit_char (d : Z) : ascii := ascii_of_N (Z.to_N (48 + d)).

Definition digit_of (c : ascii) : option Z :=
  let n := Z.of_N (N_of_ascii c) in
  if (48 <=? n) && (n <=? 57) then Some (n - 48) else None.

Definition pad2 (n : Z) : string :=
  String (digit_char (n / 10)) (String (digit_char (n mod 10)) EmptyString).

Definition pad4 (n : Z) : string :=
  String (digit_char (n / 1000))
    (String (digit_char (n / 100 mod 10))
       (String (digit_char (n / 10 mod 10))
          (String (digit_char (n mod 10)) EmptyString))).

(** [date.isoformat()], also [str(date)]: [YYYY-MM-DD]. *)
Definition isoformat (d : date) : string :=
  (pad4 (year d) ++ "-" ++ pad2 (month d) ++ "-" ++ pad2 (day d))%string.

(** The year as a [Period] writes it: in decimal, without padding. *)
Definition year_str (y : Z) : string := NilZero.string_of_int (Z.to_int y).

(** [str] of a monthly [Period]: the year, a dash and the month in two
    digits, [YYYY-MM] for a year of four digits. *)
Definition period_str (d : date) : string :=
  (year_str (year d) ++ "-" ++ pad2 (month d))%string.

Definition is_dash (c : ascii) : bool := Ascii.eqb c "-"%char.

(** Reads [YYYY-MM-DD], ten characters, nothing else. *)
Definition parse_iso (s : string) : option date :=
  match s with
  | String y1 (String y2 (String y3 (String y4 (String s1
      (String m1 (String m2 (String s2 (String d1 (String d2 EmptyString))))))))) =>
      match digit_of y1, digit_of y2, digit_of y3, digit_of y4,
            digit_of m1, digit_of m2, digit_of d1, digit_of d2 with
      | Some a, Some b, Some c, Some d, Some e, Some f, Some g, Some h =>
          if is_dash s1 && is_dash s2
          then Some (Date (1000 * a + 100 * b + 10 * c + d) (10 * e + f) (10 * g + h))
          else None
      | _, _, _, _, _, _, _, _ => None
      end
  | _ => None
  end.

(* ================================================================== *)
(** ** pandas *)
(* ================================================================== *)

(** [import pandas as pd]. pandas is a library and not part of the
    repository: what the program needs of it is a parameter of the
    functions that call it.
    - [to_datetime col] is [pd.to_datetime] on a column of texts, [None]
      being a missing value: the calendar day of the [Timestamp] read in
      each cell, [None] for a cell in which pandas finds no date ([NaT]);
      there is no result when pandas raises.
    - [date_na] and [period_na] are what [astype(str)] leaves in a cell
      without a date, in [.dt.date.astype(str)] and in
      [.dt.to_period("M").astype(str)]: the text [NaT], or a missing value
      again where the string type of pandas keeps missing values. *)
Record pandas := Pandas {
  to_datetime : list (option string) -> option (list (option date));
  date_na : option string;
  period_na : option string
}.

(** [.dt.date] makes a [datetime.date] of each [Timestamp], and raises for
    a day that type does not hold. *)
Definition holds_date (cell : option date) : bool :=
  match cell with
  | Some d => valid_date d
  | None => true
  end.

(** [astype(str)] on the cells of [.dt.date]. *)
Definition date_text (pd : pandas) (cell : option date) : option string :=
  match cell with
  | Some d => Some (isoformat d)
  | None => date_na pd
  end.

(** [astype(str)] on the cells of [.dt.to_period("M")]. *)
Definition month_text (pd : pandas) (cell : option date) : option string :=
  match cell with
  | Some d => Some (period_str d)
  | None => period_na pd
  end.

(* ================================================================== *)
(** ** The program *)
(* ================================================================== *)

Definition ensure_schema : M unit :=
  create_table_users ;;
  n <- select_count_users ;;
  (if n =? 0 then insert_user "admin" (hash_pwd "admin") else ret tt) ;;
  create_table_transactions ;;
  cols <- table_info_transactions ;;
  (if negb (existsb (String.eqb "user_id") cols)
   then alter_add_user_id ;; backfill_user_id
   else ret tt).

Definition authenticate (username password : string) : M (option Z) :=
  row <- select_id_password username ;;
  match row with
  | Some (i, stored) =>
      if String.eqb stored (hash_pwd password) then ret (Some i) else ret None
  | None => ret None
  end.

Definition get_username (user_id : Z) : M string :=
  row <- select_username user_id ;;
  match row with
  | Some name => ret name
  | None => ret "unknown"
  end.

Definition change_password (user_id : Z) (new_pwd : string) : M unit :=
  update_password (hash_pwd new_pwd) user_id.

Definition create_user (username password : string) : M bool :=
  try_except
    (insert_user username (hash_pwd password) ;; ret true)
    is_integrity_error
    (ret false).

Definition add_tx (user_id : Z) (d : date) (category : string) (amount : float) : M unit :=
  insert_tx (isoformat d) category amount user_id.

(** A row of the data frame [fetch_tx] returns: the selected columns, with
    [date] as [fetch_tx] rewrites it, and the added [Month]. [None] is a
    missing value. *)
Record frame_row := Row {
  r_id : Z;
  r_date : option string;
  r_category : string;
  r_amount : float;
  r_user_id : option Z;
  r_Month : option string
}.

(** [pd.to_datetime(df["date"]).dt.date.astype(str)] *)
Definition date_column (pd : pandas) (col : list (option string))
  : option (list (option string)) :=
  match to_datetime pd col with
  | Some cells =>
      if forallb holds_date cells then Some (map (date_text pd) cells) else None
  | None => None
  end.

(** [pd.to_datetime(df["date"]).dt.to_period("M").astype(str)] *)
Definition month_column (pd : pandas) (col : list (option string))
  : option (list (option string)) :=
  match to_datetime pd col with
  | Some cells => Some (map (month_text pd) cells)
  | None => None
  end.

(** The frame with its [date] column assigned and the [Month] column
    added, cell by cell. *)
Fixpoint with_columns (df : list tx) (dates months : list (option string))
  : list frame_row :=
  match df, dates, months with
  | r :: df', d :: dates', m :: months' =>
      Row (t_id r) d (t_category r) (t_amount r) (t_user_id r) m
      :: with_columns df' dates' months'
  | _, _, _ => []
  end.

(** The [date] column as [read_sql_query] hands it over. *)
Definition stored_date (r : tx) : option string := Some (t_date r).

Definition fetch_tx (pd : pandas) (user_id : Z) : M (list frame_row) :=
  df <- select_tx_of user_id ;;
  match df with
  | [] => ret []
  | _ :: _ =>
      match date_column pd (map stored_date df) with
      | None => raise ValueError
      | Some dates =>
          match month_column pd dates with
          | None => raise ValueError
          | Some months => ret (with_columns df dates months)
          end
      end
  end.

Definition delete_tx (user_id tx_id : Z) : M unit :=
  delete_where_id_user tx_id user_id.

(* ------------------------------------------------------------------ *)
(** *** The monthly roll-up of [budget_ui] *)

(** One cell added to the running sum of a group, as pandas' [group_sum]
    does it: a cell that is not a number is passed over; otherwise the sum
    takes the cell less the rounding error carried so far, and the error of
    that addition is carried on ([0] when it is not a number, as after an
    infinite sum). *)
Definition kahan_add (acc : float * float) (val : float) : float * float :=
  let (sumx, comp) := acc in
  if negb (PrimFloat.eqb val val) then acc
  else
    let y := (val - comp)%float in
    let t := (sumx + y)%float in
    let c := (t - sumx - y)%float in
    (t, if PrimFloat.eqb c c then c else 0%float).

(** One row of [groupby("Month")["amount"].sum()]: the groups are kept in
    ascending key order, and a group starts from a sum and an error of
    zero. *)
Fixpoint bucket_add (k : string) (a : float) (bs : list (string * (float * float)))
  : list (string * (float * float)) :=
  match bs with
  | [] => [(k, kahan_add (0%float, 0%float) a)]
  | (k', acc) :: rest =>
      match String.compare k k' with
      | Lt => (k, kahan_add (0%float, 0%float) a) :: bs
      | Eq => (k', kahan_add acc a) :: rest
      | Gt => (k', acc) :: bucket_add k a rest
      end
  end.

(** The groups of [groupby("Month")] with their running sums; a row whose
    [Month] is missing is in no group. *)
Definition group_sum (df : list frame_row) : list (string * (float * float)) :=
  fold_left (fun bs r => match r_Month r with
                         | Some k => bucket_add k (r_amount r) bs
                         | None => bs
                         end) df [].

(** [month_totals = df.groupby("Month")["amount"].sum().reset_index()] *)
Definition month_totals (df : list frame_row) : list (string * float) :=
  map (fun b => (fst b, fst (snd b))) (group_sum df).

(** [.iloc[-1]] *)
Definition iloc_last {A} (l : list A) : result A :=
  match rev l with
  | x :: _ => Ok x
  | [] => Raise IndexError
  end.

(** [current_month = month_totals.iloc[-1]], then its ["amount"]. *)
Definition current_month (totals : list (string * float)) : result float :=
  match iloc_last totals with
  | Ok b => Ok (snd b)
  | Raise e => Raise e
  end.

(** What the dashboard shows. *)
Inductive view :=
| NoTransactions
| Dashboard (totals : list (string * float)) (savings : float).

(** The data path of [budget_ui]: the fetch, the guard on an empty frame,
    the roll-up and the metric. *)
Definition budget_ui (pd : pandas) (user_id : Z) : M view :=
  df <- fetch_tx pd user_id ;;
  match df with
  | [] => ret NoTransactions
  | _ :: _ =>
      let totals := month_totals df in
      fun s => match current_month totals with
               | Ok a => Ok (Dashboard totals a, s)
               | Raise e => Raise e
               end
  end.

(* ================================================================== *)
(** ** Notions the properties are stated with *)
(* ================================================================== *)

(** What the [UNIQUE] and [PRIMARY KEY] constraints of [users] maintain. *)
Definition users_wf (t : users_table) : Prop :=
  NoDup (map u_username (users_rows t)) /\ NoDup (map u_id (users_rows t)).

(** [SELECT COUNT( * ) FROM users], zero without the table. *)
Definition user_count (s : db) : Z :=
  match users s with
  | Some t => Z.of_nat (List.length (users_rows t))
  | None => 0
  end.

(** The stored usernames. *)
Definition usernames (s : db) : list string :=
  match users s with
  | Some t => map u_username (users_rows t)
  | None => []
  end.

(** Letter case, on the ASCII letters. *)
Definition to_lower (c : ascii) : ascii :=
  let n := N_of_ascii c in
  if ((65 <=? n) && (n <=? 90))%N then ascii_of_N (n + 32) else c.

Fixpoint lower (s : string) : string :=
  match s with
  | EmptyString => EmptyString
  | String c r => String (to_lower c) (lower r)
  end.

(** Two distinct names that differ only in the case of their letters. *)
Definition case_variant (a b : string) : bool :=
  negb (String.eqb a b) && String.eqb (lower a) (lower b).

(** The store after the first start and the creation of a user [ADMIN]. *)
Definition db_admin_ADMIN : db :=
  Db (Some (UsersTable [User 1 "admin" (hash_pwd "admin");
                        User 2 "ADMIN" (hash_pwd "secret")] 2))
     (Some (TxTable true [] 0)).

(** The text of a calendar date, as [add_tx] stores it: [YYYY-MM-DD] for a
    day of the calendar. *)
Definition canonical_date (s : string) : bool :=
  match parse_iso s with
  | Some d => valid_date d
  | None => false
  end.

(** A canonical date whose year has four digits, the year 1000 or later. *)
Definition four_digit_year (s : string) : bool :=
  match parse_iso s with
  | Some d => valid_date d && (1000 <=? year d)
  | None => false
  end.

(** The frame row of a stored row whose date is canonical and read as the
    day it spells: the date as stored, and the month of that day. *)
Definition frame_row_of (r : tx) : frame_row :=
  Row (t_id r) (Some (t_date r)) (t_category r) (t_amount r) (t_user_id r)
      (option_map period_str (parse_iso (t_date r))).

(** The columns [fetch_tx] leaves as they were selected. *)
Definition selected_columns (r : tx) : Z * string * float * option Z :=
  (t_id r, t_category r, t_amount r, t_user_id r).

Definition kept_columns (f : frame_row) : Z * string * float * option Z :=
  (r_id f, r_category f, r_amount f, r_user_id f).

(** What is assumed of pandas: [to_datetime] returns a cell for each cell
    it is given, and it reads a column of canonical dates and cells
    without a date, such as [.dt.date.astype(str)] makes, as the days
    written there, when it reads the column at all. *)
Definition same_length (pd : pandas) : Prop :=
  forall col cells,
    to_datetime pd col = Some cells -> List.length cells = List.length col.

Definition reads_canonical (pd : pandas) : Prop :=
  forall days cells,
    forallb holds_date days = true ->
    to_datetime pd (map (date_text pd) days) = Some cells -> cells = days.

Definition pandas_ok (pd : pandas) : Prop := same_length pd /\ reads_canonical pd.

(** Lines 105 and 106 go through on the dates of these rows: pandas reads
    the stored texts, the days are days of [datetime.date], and pandas
    reads the rewritten column. *)
Definition dates_read (pd : pandas) (rows : list tx) : bool :=
  match date_column pd (map stored_date rows) with
  | Some dates =>
      match month_column pd dates with
      | Some _ => true
      | None => false
      end
  | None => false
  end.

(** Chronological order. *)
Definition date_le (d1 d2 : date) : bool :=
  (year d1 <? year d2)
  || ((year d1 =? year d2)
      && ((month d1 <? month d2)
          || ((month d1 =? month d2) && (day d1 <=? day d2)))).

(** The order [ORDER BY date] puts the rows in. *)
Definition by_date (a b : tx) : Prop := String.leb (t_date a) (t_date b) = true.


(** The first frame row is dated no later than the second. *)
Definition not_after (a b : frame_row) : Prop :=
  exists da db,
    r_date a = Some (isoformat da) /\ r_date b = Some (isoformat db)
    /\ valid_date da = true /\ valid_date db = true
    /\ date_le da db = true.

(** The [users] table [ensure_schema] leaves: created and seeded when it
    was absent, seeded when it was empty, kept otherwise. *)
Definition seeded (us : option users_table) : users_table :=
  match us with
  | None => UsersTable [User 1 "admin" (hash_pwd "admin")] 1
  | Some t =>
      match users_rows t with
      | [] =>
          let i := next_rowid u_id [] (users_seq t) in
          UsersTable [User i "admin" (hash_pwd "admin")] i
      | _ :: _ => t
      end
  end.

(** A stored row handed to the seed user. *)
Definition to_seed_user (r : tx) : tx :=
  Tx (t_id r) (t_date r) (t_category r) (t_amount r) (Some 1).

(** The [transactions] table [ensure_schema] leaves: created when absent,
    given the [user_id] column with every row backfilled when it lacked it,
    kept otherwise. *)
Definition migrated (txs : option tx_table) : tx_table :=
  match txs with
  | None => TxTable true [] 0
  | Some t =>
      if tx_has_user_id t then t
      else TxTable true (map to_seed_user (tx_rows t)) (tx_seq t)
  end.

(** A store written before the program had users: no [users] table, and a
    [transactions] table without [user_id]. *)
Definition db_legacy : db :=
  Db None
     (Some (TxTable false
              [Tx 1 "2024-01-15" "salary" 1000%float None;
               Tx 2 "2023-12-31" "gift" 50%float None] 2)).

(** Ascending order of month keys. *)
Definition key_lt (a b : string) : Prop := String.compare a b = Lt.

(** The sum [groupby(...).sum()] forms of the cells of one group: the
    compensated sum, from zero, in row order. *)
Definition sum_amounts (l : list float) : float :=
  fst (fold_left kahan_add l (0%float, 0%float)).

(** The row is of month [k]. *)
Definition in_month (k : string) (r : frame_row) : bool :=
  match r_Month r with
  | Some m => String.eqb m k
  | None => false
  end.

(** The amounts of the rows of month [k], in row order. *)
Definition amounts_of (k : string) (df : list frame_row) : list float :=
  map r_amount (filter (in_month k) df).

(** What is recorded under key [k], if anything. *)
Definition total_of {A} (k : string) (bs : list (string * A)) : option A :=
  option_map snd (find (fun b => String.eqb (fst b) k) bs).

(** The order of the calendar on months. *)
Definition month_lt (d1 d2 : date) : bool :=
  (year d1 <? year d2) || ((year d1 =? year d2) && (month d1 <? month d2)).

(** The three transactions of the worked example, added for the seed user
    to a fresh store. *)
Definition db_example : db :=
  Db (Some (UsersTable [User 1 "admin" (hash_pwd "admin")] 1))
     (Some (TxTable true
              [Tx 1 "2024-01-15" "salary" 1000%float (Some 1);
               Tx 2 "2024-01-20" "rent" (-200)%float (Some 1);
               Tx 3 "2024-02-01" "bonus" 500%float (Some 1)] 3)).


(** The constraints hold of the [users] table, when there is one. *)
Definition db_wf (s : db) : Prop :=
  match users s with
  | Some t => users_wf t
  | None => True
  end.

(** The store after the first start: the seed user and no transaction. *)
Definition db_fresh : db :=
  Db (Some (UsersTable [User 1 "admin" (hash_pwd "admin")] 1))
     (Some (TxTable true [] 0)).

(** The example store after [create_user "alice" "pw1"]. *)
Definition db_alice : db :=
  Db (Some (UsersTable [User 1 "admin" (hash_pwd "admin");
                        User 2 "alice" (hash_pwd "pw1")] 2))
     (transactions db_example).

(* ------------------------------------------------------------------ *)
(** *** A pandas for the examples *)

(** The theorems hold of every [pandas]; the examples need one. This one
    reads a column whose texts are all canonical dates, or all a canonical
    date followed by a time of day, [YYYY-MM-DD HH:MM:SS]; an empty text,
    the text [NaT] and a missing value are cells without a date; every
    other column it refuses. It keeps to the years 1678 to 2261, which a
    [Timestamp] of any resolution holds, so that pandas reads each column
    this one reads, and the same days in it; pandas reads other columns
    besides. *)
Definition in_every_span (d : date) : bool := (1678 <=? year d) && (year d <=? 2261).

Definition read_day (s : string) : option date :=
  match parse_iso s with
  | Some d => if valid_date d && in_every_span d then Some d else None
  | None => None
  end.

Definition two_digits_below (bound : Z) (s : string) : bool :=
  match s with
  | String a (String b EmptyString) =>
      match digit_of a, digit_of b with
      | Some x, Some y => 10 * x + y <? bound
      | _, _ => false
      end
  | _ => false
  end.

(** A blank and a time of day, [ HH:MM:SS]. *)
Definition read_time (s : string) : bool :=
  Nat.eqb (String.length s) 9
  && String.eqb (substring 0 1 s) " "
  && two_digits_below 24 (substring 1 2 s)
  && String.eqb (substring 3 1 s) ":"
  && two_digits_below 60 (substring 4 2 s)
  && String.eqb (substring 6 1 s) ":"
  && two_digits_below 60 (substring 7 2 s).

Definition read_day_time (s : string) : option date :=
  if Nat.eqb (String.length s) 19 && read_time (substring 10 9 s)
  then read_day (substring 0 10 s)
  else None.

Definition no_date (cell : option string) : bool :=
  match cell with
  | None => true
  | Some s => String.eqb s "" || String.eqb s "NaT"
  end.

(** One format for the whole column. *)
Fixpoint read_column (read : string -> option date) (col : list (option string))
  : option (list (option date)) :=
  match col with
  | [] => Some []
  | cell :: rest =>
      match read_column read rest with
      | None => None
      | Some cells =>
          match cell with
          | None => Some (None :: cells)
          | Some s =>
              if no_date cell then Some (None :: cells)
              else match read s with
                   | Some d => Some (Some d :: cells)
                   | None => None
                   end
          end
      end
  end.

Definition example_to_datetime (col : list (option string)) : option (list (option date)) :=
  match read_column read_day col with
  | Some cells => Some cells
  | None => read_column read_day_time col
  end.

(** With the text [NaT] in a cell without a date. *)
Definition pd_nat_text : pandas := Pandas example_to_datetime (Some "NaT") (Some "NaT").

(** With a missing value in a cell without a date. *)
Definition pd_nat_missing : pandas := Pandas example_to_datetime None None.


(** A store written before the program had users, with a row whose date
    column holds a text that is not a date. *)
Definition db_legacy_unread : db :=
  Db None (Some (TxTable false [Tx 1 "not a date" "misc" 10%float None] 1)).

(** That store after [ensure_schema]. *)
Definition db_unread : db :=
  Db (Some (UsersTable [User 1 "admin" (hash_pwd "admin")] 1))
     (Some (TxTable true [Tx 1 "not a date" "misc" 10%float (Some 1)] 1)).

(** A migrated store with a row whose date column is empty. *)
Definition db_undated : db :=
  Db (Some (UsersTable [User 1 "admin" (hash_pwd "admin")] 1))
     (Some (TxTable true [Tx 1 "" "misc" 10%float (Some 1)] 1)).

(** A store whose users were all deleted after three had been created, and
    whose [transactions] table is still without [user_id]. *)
Definition db_reseeded : db :=
  Db (Some (UsersTable [] 3))
     (Some (TxTable false [Tx 1 "2024-01-15" "salary" 1000%float None] 1)).


(* ================================================================== *)
(** ** The pages: [login_ui], [account_settings_ui], [budget_ui], [main] *)
(* ================================================================== *)

(** [st.session_state]. The keys [auth], [user_id] and [username] are
    written together by [login_ui] and removed together by the logout
    button, and nothing else touches them: the record keeps them as one
    optional pair, the id and the name of the user who is logged in. *)
Record session := Session { logged_in : option (Z * string); show_settings : bool }.

(** What one run of the script is started by: the form or button that was
    used (a button is true only in the run its click starts), or nothing. *)
Inductive action :=
| View
| SubmitLogin (username password : string)
| OpenSettings
| UpdatePassword (pwd1 pwd2 : string)
| CreateUser (new_user new_pwd1 new_pwd2 : string)
| Logout
| Add (d : date) (category : string) (amount : float)
| Delete (tx_id : Z).

(** The messages the pages show. *)
Inductive note :=
| InvalidCredentials
| PasswordUpdated
| PasswordsDontMatch
| UserCreated (name : string)
| UsernameExists
| FillAllFields
| EnterCategoryAmount
| NoTransactionsYet.

(** How a run ends: with [st.rerun()], or with a page drawn. *)
Inductive ui :=
| Rerun
| LoginPage (notes : list note)
| BudgetPage (notes : list note) (v : view) (rows : list frame_row).

(** A run of the script makes several calls, each committed where it ends:
    a run carries the store along and keeps it when something raises. *)
Definition P (A : Type) : Type := db -> result A * db.

Definition pret {A} (a : A) : P A := fun s => (Ok a, s).

Definition pbind {A B} (m : P A) (k : A -> P B) : P B :=
  fun s => match m s with
           | (Ok a, s') => k a s'
           | (Raise e, s') => (Raise e, s')
           end.

(** A call inside a run: committed when it returns, without effect when it
    raises. *)
Definition run_call {A} (m : M A) : P A :=
  fun s => match m s with
           | Ok (a, s') => (Ok a, s')
           | Raise e => (Raise e, s)
           end.

Declare Scope page_scope.
Delimit Scope page_scope with page.
Notation "x <- m ;; k" := (pbind m (fun x => k))
  (at level 61, m at next level, right associativity) : page_scope.
Notation "m ;; k" := (pbind m (fun _ => k))
  (at level 61, right associativity) : page_scope.

(** The truth value of a [str]. *)
Definition nonempty (s : string) : bool := negb (String.eqb s "").

(** [if user_id:] holds of an id other than zero. *)
Definition login_ui (username password : string) (submitted : bool) (ss : session)
  : P (session * ui) :=
  (if submitted then
     user_id <- run_call (authenticate username password) ;;
     match user_id with
     | Some i =>
         if i =? 0 then pret (ss, LoginPage [InvalidCredentials])
         else pret (Session (Some (i, username)) (show_settings ss), Rerun)
     | None => pret (ss, LoginPage [InvalidCredentials])
     end
   else pret (ss, LoginPage []))%page.

(** The panel of [account_settings_ui]; [None] stands for the rerun that
    follows the logout. *)
Definition account_settings_ui (a : action) (user_id : Z) (ss : session)
  : P (session * option (list note)) :=
  (match a with
   | UpdatePassword pwd1 pwd2 =>
       if nonempty pwd1 && String.eqb pwd1 pwd2
       then run_call (change_password user_id pwd1) ;; pret (ss, Some [PasswordUpdated])
       else pret (ss, Some [PasswordsDontMatch])
   | CreateUser new_user new_pwd1 new_pwd2 =>
       if nonempty new_user && String.eqb new_pwd1 new_pwd2
       then created <- run_call (create_user new_user new_pwd1) ;;
            pret (ss, Some [if created then UserCreated new_user else UsernameExists])
       else pret (ss, Some [FillAllFields])
   | Logout => pret (Session None (show_settings ss), None)
   | _ => pret (ss, Some [])
   end)%page.

(** The sidebar of [budget_ui]: [amount != 0] on floats; [None] stands for
    the rerun that follows the insertion. *)
Definition add_button (user_id : Z) (d : date) (category : string) (amount : float)
  : P (option (list note)) :=
  (if nonempty category && negb (PrimFloat.eqb amount 0%float)
   then run_call (add_tx user_id d category amount) ;; pret None
   else pret (Some [EnterCategoryAmount]))%page.

(** [budget_ui] from the fetch on: the guard on an empty frame, the
    roll-up and the metric, and the delete buttons of the rows drawn. *)
Definition budget_ui_rows (pd : pandas) (a : action) (user_id : Z) (ss : session)
    (notes : list note) : P (session * ui) :=
  (df <- run_call (fetch_tx pd user_id) ;;
   match df with
   | [] => pret (ss, BudgetPage (notes ++ [NoTransactionsYet])%list NoTransactions [])
   | _ :: _ =>
       let totals := month_totals df in
       savings <- (fun s => (current_month totals, s)) ;;
       match a with
       | Delete tx_id =>
           if existsb (Z.eqb tx_id) (map r_id df)
           then run_call (delete_tx user_id tx_id) ;; pret (ss, Rerun)
           else pret (ss, BudgetPage notes (Dashboard totals savings) df)
       | _ => pret (ss, BudgetPage notes (Dashboard totals savings) df)
       end
   end)%page.

(** One run of [budget_ui]: the settings panel when it is open, the
    sidebar, then the rows. *)
Definition budget_ui_run (pd : pandas) (a : action) (user_id : Z) (ss : session)
  : P (session * ui) :=
  (panel <- (if show_settings ss then account_settings_ui a user_id ss
             else pret (ss, Some [])) ;;
   match panel with
   | (ss', None) => pret (ss', Rerun)
   | (ss', Some notes) =>
       added <- match a with
                | Add d category amount => add_button user_id d category amount
                | _ => pret (Some [])
                end ;;
       match added with
       | None => pret (ss', Rerun)
       | Some notes' => budget_ui_rows pd a user_id ss' (notes ++ notes')%list
       end
   end)%page.

(** [main]: the schema first, then the page the session calls for. The
    callback of the settings button runs before the script does. *)
Definition main (pd : pandas) (a : action) (ss : session) : P (session * ui) :=
  (run_call ensure_schema ;;
   match logged_in ss with
   | None =>
       match a with
       | SubmitLogin username password => login_ui username password true ss
       | _ => login_ui "" "" false ss
       end
   | Some (user_id, _) =>
       match a with
       | OpenSettings => budget_ui_run pd a user_id (Session (logged_in ss) true)
       | _ => budget_ui_run pd a user_id ss
       end
   end)%page.

(* ------------------------------------------------------------------ *)
(** *** Notions for the properties of the calls *)

(** The value a call returns, the store left aside. *)
Definition value {A} (r : result (A * db)) : result A :=
  match r with
  | Ok (a, _) => Ok a
  | Raise e => Raise e
  end.

(** Distinct rowids, all positive, as AUTOINCREMENT allocates them. *)
Definition ids_ok {A} (id : A -> Z) (rows : list A) : Prop :=
  NoDup (map id rows) /\ Forall (fun r => 1 <= id r) rows.

(** What the constraints of the two tables and the allocation of rowids
    maintain. *)
Definition db_inv (s : db) : Prop :=
  match users s with
  | Some t => NoDup (map u_username (users_rows t)) /\ ids_ok u_id (users_rows t)
  | None => True
  end
  /\ match transactions s with
     | Some t => ids_ok t_id (tx_rows t)
     | None => True
     end.

(** One call of the program on the store. *)
Inductive call : db -> db -> Prop :=
| call_ensure_schema s s' :
    ensure_schema s = Ok (tt, s') -> call s s'
| call_create_user name pwd b s s' :
    create_user name pwd s = Ok (b, s') -> call s s'
| call_change_password user_id pwd s s' :
    change_password user_id pwd s = Ok (tt, s') -> call s s'
| call_add_tx user_id d category amount s s' :
    add_tx user_id d category amount s = Ok (tt, s') -> call s s'
| call_delete_tx user_id tx_id s s' :
    delete_tx user_id tx_id s = Ok (tt, s') -> call s s'.

(** The writes a run of [budget_ui] makes for the user who is logged in. *)
Inductive write_by (user_id : Z) : db -> db -> Prop :=
| write_create_user name pwd s s' :
    create_user name pwd s = Ok (true, s') -> write_by user_id s s'
| write_change_password pwd s s' :
    change_password user_id pwd s = Ok (tt, s') -> write_by user_id s s'
| write_add_tx d category amount s s' :
    nonempty category && negb (PrimFloat.eqb amount 0%float) = true ->
    add_tx user_id d category amount s = Ok (tt, s') -> write_by user_id s s'
| write_delete_tx tx_id s s' :
    delete_tx user_id tx_id s = Ok (tt, s') -> write_by user_id s s'.

(** Any number of calls. *)
Inductive calls : db -> db -> Prop :=
| calls_refl s : calls s s
| calls_step s s' s'' : calls s s' -> call s' s'' -> calls s s''.

(** The store [ensure_schema] has nothing to do on: both tables, a user,
    and the [user_id] column. *)
Definition ready (s : db) : bool :=
  match users s, transactions s with
  | Some u, Some t =>
      match users_rows u with
      | [] => false
      | _ :: _ => tx_has_user_id t
      end
  | _, _ => false
  end.

(** The columns of a transaction other than [user_id]. *)
Definition tx_data (r : tx) : Z * string * string * float :=
  (t_id r, t_date r, t_category r, t_amount r).

(** The transaction rows of a store. *)
Definition all_tx (s : db) : list tx :=
  match transactions s with
  | Some t => tx_rows t
  | None => []
  end.

(** The user rows of a store. *)
Definition all_users (s : db) : list user :=
  match users s with
  | Some t => users_rows t
  | None => []
  end.

(** What makes a run of the budget page raise: a date pandas does not
    read, or the metric of a frame in which pandas has left every month
    missing. *)
Definition date_error (pd : pandas) (e : error) : Prop :=
  e = ValueError \/ (e = IndexError /\ period_na pd = None).

(** What the sidebar asks of a transaction: a category and an amount other
    than zero. *)
Definition entered (r : tx) : bool :=
  nonempty (t_category r) && negb (PrimFloat.eqb (t_amount r) 0%float).

Arguments hash_pwd : simpl never.

(* ================================================================== *)
(** ** Lists of rows *)
(* ================================================================== *)

Section Rows.

Context {A B : Type}.
Variable key : A -> B.
Variable id : A -> Z.
Variable R : A -> A -> Prop.

Lemma NoDup_snoc (l : list A) (x : A) : NoDup l -> ~ In x l -> NoDup (l ++ [x]).
Proof using Type.
  intros Hl Hx. induction Hl as [|y l Hy Hl IH]; simpl.
  - constructor; [simpl; intros [] | constructor].
  - constructor.
    + rewrite in_app_iff. simpl. intros [H|[H|[]]]; [contradiction|].
      subst. apply Hx. left. reflexivity.
    + apply IH. intro H. apply Hx. right. assumption.
Qed.

(** Rows are told apart by a column that has no duplicates. *)
Lemma NoDup_map_eq (l : list A) (u v : A) :
  NoDup (map key l) -> In u l -> In v l -> key u = key v -> u = v.
Proof using Type.
  induction l as [|w l IH]; simpl; [intros _ []|].
  intros Hnd Hu Hv E. inversion Hnd as [|x xs Hw Hnd' [Ex Exs]].
  destruct Hu as [Hu|Hu], Hv as [Hv|Hv].
  - congruence.
  - exfalso. apply Hw. rewrite Hu, E. apply in_map. assumption.
  - exfalso. apply Hw. rewrite Hv, <- E. apply in_map. assumption.
  - apply IH; assumption.
Qed.

Lemma max_rowid_ge (rows : list A) (r : A) : In r rows -> id r <= max_rowid id rows.
Proof using Type.
  induction rows as [|x rows IH]; simpl; [intros []|].
  intros [->|H]; [lia|]. specialize (IH H). lia.
Qed.

(** AUTOINCREMENT never hands out a rowid the table holds. *)
Lemma next_rowid_fresh (rows : list A) (seq : Z) :
  ~ In (next_rowid id rows seq) (map id rows).
Proof using Type.
  unfold next_rowid. rewrite in_map_iff. intros [r [E H]].
  apply max_rowid_ge in H. lia.
Qed.

Lemma sorted_last_greatest (l : list A) (x : A) :
  StronglySorted R (l ++ [x]) -> Forall (fun y => R y x) l.
Proof using Type.
  induction l as [|y l IH]; simpl; intro H; [constructor|].
  inversion H as [|? ? Hl Hy]; subst. constructor; [|apply IH; exact Hl].
  rewrite Forall_forall in Hy. apply Hy. rewrite in_app_iff. simpl. auto.
Qed.

Lemma StronglySorted_map (R' : B -> B -> Prop) (l : list A) :
  (forall a b, R a b -> R' (key a) (key b)) ->
  StronglySorted R l -> StronglySorted R' (map key l).
Proof using Type.
  intros Hf. induction 1 as [|a l Hl IH Ha]; simpl; constructor; [exact IH|].
  rewrite Forall_map. eapply Forall_impl; [|exact Ha]. intros b. apply Hf.
Qed.

Lemma iloc_last_snoc (l : list A) (x : A) : iloc_last (l ++ [x]) = Ok x.
Proof using Type. unfold iloc_last. rewrite rev_app_distr. reflexivity. Qed.

End Rows.

(* ================================================================== *)
(** ** Accounts *)
(* ================================================================== *)

Module Accounts.

Lemma username_taken_In name rows :
  username_taken name rows = true <-> In name (map u_username rows).
Proof.
  unfold username_taken. rewrite existsb_exists, in_map_iff.
  split; intros [u [H1 H2]]; exists u.
  - apply String.eqb_eq in H2. auto.
  - split; [assumption | apply String.eqb_eq; assumption].
Qed.

Lemma username_taken_false name rows :
  username_taken name rows = false <-> ~ In name (map u_username rows).
Proof.
  rewrite <- username_taken_In. destruct (username_taken name rows); intuition congruence.
Qed.

(** The first row [find] meets is the only one of that name. *)
Lemma find_username_unique rows name u :
  NoDup (map u_username rows) ->
  In u rows -> u_username u = name ->
  find (fun v => String.eqb (u_username v) name) rows = Some u.
Proof.
  induction rows as [|v rows IH]; simpl; [tauto|].
  intros Hnd Hin Hname. inversion Hnd as [|? ? Hv Hnd']; subst.
  destruct Hin as [->|Hin].
  - rewrite String.eqb_refl. reflexivity.
  - destruct (String.eqb_spec (u_username v) (u_username u)) as [E|_].
    + exfalso. apply Hv. rewrite E. apply in_map. assumption.
    + apply IH; auto.
Qed.

(** [create_user] by cases on the table and the name. *)
Lemma create_user_cases name pwd s :
  match users s with
  | None => create_user name pwd s = Raise OperationalError
  | Some t =>
      if username_taken name (users_rows t)
      then create_user name pwd s = Ok (false, s)
      else create_user name pwd s =
           Ok (true, Db (Some (UsersTable
                  (users_rows t
                     ++ [User (next_rowid u_id (users_rows t) (users_seq t)) name
                              (hash_pwd pwd)])
                  (next_rowid u_id (users_rows t) (users_seq t))))
                (transactions s))
  end.
Proof.
  unfold create_user, try_except, bind, insert_user, ret.
  destruct (users s) as [t|]; [|reflexivity].
  destruct (username_taken name (users_rows t)); reflexivity.
Qed.

Lemma insert_preserves_wf t name h :
  users_wf t ->
  username_taken name (users_rows t) = false ->
  users_wf (UsersTable
              (users_rows t ++ [User (next_rowid u_id (users_rows t) (users_seq t)) name h])
              (next_rowid u_id (users_rows t) (users_seq t))).
Proof.
  intros [Hn Hi] Hfree. apply username_taken_false in Hfree.
  unfold users_wf; simpl. rewrite !map_app; simpl. split.
  - apply NoDup_snoc; assumption.
  - apply NoDup_snoc; [assumption | apply next_rowid_fresh].
Qed.

(** The calls keep the constraints of [users]. *)
Lemma create_user_wf name pwd s b s' :
  db_wf s -> create_user name pwd s = Ok (b, s') -> db_wf s'.
Proof.
  unfold db_wf. intros Hwf H. pose proof (create_user_cases name pwd s) as C.
  destruct (users s) as [t|] eqn:Hu; [|congruence].
  destruct (username_taken name (users_rows t)) eqn:Hfree; rewrite C in H;
    injection H as <- <-; simpl.
  - rewrite Hu. assumption.
  - apply insert_preserves_wf; assumption.
Qed.

Lemma change_password_wf user_id new_pwd s s' :
  db_wf s -> change_password user_id new_pwd s = Ok (tt, s') -> db_wf s'.
Proof.
  unfold db_wf, change_password, update_password.
  destruct (users s) as [t|]; [|discriminate]. intros [Hn Hi] [= <-]. simpl.
  unfold users_wf. simpl. rewrite !map_map.
  assert (E1 : forall f : user -> string,
             (forall u, f u = u_username u) ->
             map f (users_rows t) = map u_username (users_rows t))
    by (intros f Hf; apply map_ext; exact Hf).
  assert (E2 : forall f : user -> Z,
             (forall u, f u = u_id u) -> map f (users_rows t) = map u_id (users_rows t))
    by (intros f Hf; apply map_ext; exact Hf).
  rewrite E1, E2; [split; assumption | |];
    intro u; destruct (u_id u =? user_id); reflexivity.
Qed.

End Accounts.

(** C1: with the [users] table in place, [authenticate] never raises; it
    returns the id of the user stored under exactly that username when that
    user exists and the stored hash is [hash_pwd] of the given password, and
    [None] in every other case; and [hash_pwd] maps equal passwords to equal
    digests. *)
Theorem authenticate_spec (s : db) (t : users_table) (username password : string) :
  users s = Some t ->
  users_wf t ->
  (exists r,
      authenticate username password s = Ok (r, s)
      /\ forall i,
          r = Some i <->
          exists u, In u (users_rows t) /\ u_username u = username
                    /\ u_id u = i /\ u_password u = hash_pwd password)
  /\ (forall p q, p = q -> hash_pwd p = hash_pwd q).
Proof.
  intros Hu [Hnames _]. split; [|intros p q ->; reflexivity].
  unfold authenticate, bind, select_id_password, ret. rewrite Hu.
  destruct (find _ (users_rows t)) as [u|] eqn:Hfind; simpl.
  - destruct (find_some _ _ Hfind) as [Hin Hname]. apply String.eqb_eq in Hname.
    assert (Hsame : forall v, In v (users_rows t) -> u_username v = username -> v = u).
    { intros v Hv Hvn.
      pose proof (Accounts.find_username_unique _ _ _ Hnames Hv Hvn) as E.
      rewrite Hfind in E. congruence. }
    destruct (String.eqb_spec (u_password u) (hash_pwd password)) as [Hpw|Hpw].
    + exists (Some (u_id u)). split; [reflexivity|]. intro i. split.
      * intros [= <-]. exists u. auto.
      * intros [v [Hv [Hvn [Hvi _]]]]. rewrite (Hsame v Hv Hvn) in Hvi. congruence.
    + exists None. split; [reflexivity|]. intro i. split; [discriminate|].
      intros [v [Hv [Hvn [_ Hvp]]]]. rewrite (Hsame v Hv Hvn) in Hvp. contradiction.
  - exists None. split; [reflexivity|]. intro i. split; [discriminate|].
    intros [v [Hv [Hvn _]]].
    pose proof (find_none _ _ Hfind v Hv) as E. simpl in E.
    apply String.eqb_neq in E. contradiction.
Qed.

(** C6: when [create_user u p1] returns [True], the next [create_user u p2]
    returns [False] and leaves the store as it is, so the two calls add one
    user in all; [create_user] never lets [IntegrityError] through. *)
Theorem create_user_twice (s s1 : db) (u p1 p2 : string) :
  create_user u p1 s = Ok (true, s1) ->
  create_user u p2 s1 = Ok (false, s1)
  /\ user_count s1 = user_count s + 1
  /\ (forall name pwd s0, create_user name pwd s0 <> Raise IntegrityError).
Proof.
  intro H1. split; [|split].
  - pose proof (Accounts.create_user_cases u p1 s) as C1.
    destruct (users s) as [t|]; [|congruence].
    destruct (username_taken u (users_rows t)) eqn:Ht; [congruence|].
    rewrite C1 in H1. injection H1 as <-.
    pose proof (Accounts.create_user_cases u p2
                  (Db (Some (UsersTable
                     (users_rows t
                        ++ [User (next_rowid u_id (users_rows t) (users_seq t)) u
                                 (hash_pwd p1)])
                     (next_rowid u_id (users_rows t) (users_seq t))))
                     (transactions s))) as C2.
    simpl in C2.
    replace (username_taken u _) with true in C2; [exact C2|].
    symmetry. apply Accounts.username_taken_In. rewrite map_app, in_app_iff. right. simpl. auto.
  - pose proof (Accounts.create_user_cases u p1 s) as C1. unfold user_count.
    destruct (users s) as [t|]; [|congruence].
    destruct (username_taken u (users_rows t)); [congruence|].
    rewrite C1 in H1. injection H1 as <-. simpl.
    rewrite length_app. simpl. lia.
  - intros name pwd s0. pose proof (Accounts.create_user_cases name pwd s0) as C.
    destruct (users s0) as [t|]; [|congruence].
    destruct (username_taken name (users_rows t)); congruence.
Qed.

(** C9: [change_password] rewrites the password of the rows whose id is the
    given one and nothing else: ids, usernames, the rows of other ids, the
    AUTOINCREMENT counter and the transactions stay; the primary key leaves
    at most one such row; with no such row the store is unchanged. *)
Theorem change_password_frame (s : db) (t : users_table) (user_id : Z) (new_pwd : string) :
  users s = Some t ->
  exists rows',
    change_password user_id new_pwd s =
      Ok (tt, Db (Some (UsersTable rows' (users_seq t))) (transactions s))
    /\ Forall2 (fun u u' =>
                  u_id u' = u_id u /\ u_username u' = u_username u
                  /\ (u_id u <> user_id -> u' = u)
                  /\ (u_id u = user_id -> u_password u' = hash_pwd new_pwd))
               (users_rows t) rows'
    /\ (NoDup (map u_id (users_rows t)) ->
        forall u v, In u (users_rows t) -> In v (users_rows t) ->
                    u_id u = user_id -> u_id v = user_id -> u = v)
    /\ (~ In user_id (map u_id (users_rows t)) ->
        change_password user_id new_pwd s = Ok (tt, s)).
Proof.
  intro Hu.
  unfold change_password, update_password. rewrite Hu.
  eexists. split; [reflexivity|]. split; [|split].
  - induction (users_rows t) as [|u rows IH]; simpl; constructor; [|exact IH].
    destruct (Z.eqb_spec (u_id u) user_id); simpl; intuition congruence.
  - intros Hnd u v Hu' Hv Eu Ev.
    apply (NoDup_map_eq u_id (users_rows t)); congruence.
  - intro Hno. destruct s as [us txs]. simpl in *. subst us.
    destruct t as [rows seq]. simpl in *.
    assert (Hmap : forall set, (forall u, In u rows -> set u = u) -> map set rows = rows).
    { intros set Hset. rewrite <- (map_id rows) at 2. apply map_ext_in. assumption. }
    rewrite Hmap; [reflexivity|].
    intros u Hin. destruct (Z.eqb_spec (u_id u) user_id) as [E|E]; [|reflexivity].
    exfalso. apply Hno. rewrite <- E. apply in_map. assumption.
Qed.

(** C10, as stated, fails: with [admin] and [ADMIN] both stored (the state
    after the first start and one [create_user "ADMIN"]), [ADMIN] differs
    from the stored [admin] only in case, yet creating it again is refused. *)
Lemma create_user_case_variant_refused :
  (ensure_schema ;; create_user "ADMIN" "secret") empty_db = Ok (true, db_admin_ADMIN)
  /\ ~ (forall (s : db) (u u' pwd : string),
          In u (usernames s) -> case_variant u u' = true ->
          exists s', create_user u' pwd s = Ok (true, s')).
Proof.
  split; [vm_compute; reflexivity|].
  intro H.
  destruct (H db_admin_ADMIN "admin" "ADMIN" "other") as [s' Hs'].
  - simpl. auto.
  - vm_compute. reflexivity.
  - vm_compute in Hs'. discriminate.
Qed.

(** C10, amended: uniqueness is exact equality of the stored name, so a
    name that differs from a stored one only in letter case, and is not
    itself stored, is accepted: [create_user] returns [True] and appends one
    user under a fresh id; in general it returns [True] exactly when no
    stored name equals the new one. *)
Theorem create_user_case_sensitive (s : db) (t : users_table) (u u' pwd : string) :
  users s = Some t ->
  In u (usernames s) ->
  case_variant u u' = true ->
  ~ In u' (usernames s) ->
  (exists i,
      create_user u' pwd s =
        Ok (true, Db (Some (UsersTable (users_rows t ++ [User i u' (hash_pwd pwd)]) i))
                     (transactions s))
      /\ ~ In i (map u_id (users_rows t)))
  /\ (forall name p, (exists s', create_user name p s = Ok (true, s'))
                     <-> ~ In name (usernames s)).
Proof.
  intros Hu _ _ Hfree. unfold usernames in *. rewrite Hu in *. split.
  - exists (next_rowid u_id (users_rows t) (users_seq t)). split.
    + pose proof (Accounts.create_user_cases u' pwd s) as C. rewrite Hu in C.
      apply Accounts.username_taken_false in Hfree. rewrite Hfree in C. exact C.
    + apply next_rowid_fresh.
  - intros name p. pose proof (Accounts.create_user_cases name p s) as C. rewrite Hu in C.
    rewrite <- Accounts.username_taken_false.
    destruct (username_taken name (users_rows t)); rewrite C; split.
    + intros [s' H]. discriminate.
    + discriminate.
    + reflexivity.
    + intros _. eexists. reflexivity.
Qed.

(* ================================================================== *)
(** ** The order on text ([ORDER BY], group keys) *)
(* ================================================================== *)

Module TextOrder.

Lemma ascii_compare_refl a : Ascii.compare a a = Eq.
Proof. unfold Ascii.compare. apply N.compare_refl. Qed.

Lemma ascii_compare_lt_trans a b c :
  Ascii.compare a b = Lt -> Ascii.compare b c = Lt -> Ascii.compare a c = Lt.
Proof.
  unfold Ascii.compare. rewrite !N.compare_lt_iff. apply N.lt_trans.
Qed.

Lemma compare_refl s : String.compare s s = Eq.
Proof.
  induction s as [|a s IH]; simpl; [reflexivity|].
  rewrite ascii_compare_refl. exact IH.
Qed.

Lemma compare_lt_trans s1 : forall s2 s3,
  String.compare s1 s2 = Lt -> String.compare s2 s3 = Lt -> String.compare s1 s3 = Lt.
Proof.
  induction s1 as [|a s1 IH]; intros [|b s2] [|c s3]; simpl; try congruence.
  destruct (Ascii.compare a b) eqn:Hab; try discriminate;
    destruct (Ascii.compare b c) eqn:Hbc; try discriminate; intros H1 H2.
  - apply Ascii.compare_eq_iff in Hab, Hbc. subst.
    rewrite ascii_compare_refl. eapply IH; eassumption.
  - apply Ascii.compare_eq_iff in Hab. subst. rewrite Hbc. reflexivity.
  - apply Ascii.compare_eq_iff in Hbc. subst. rewrite Hab. reflexivity.
  - rewrite (ascii_compare_lt_trans _ _ _ Hab Hbc). reflexivity.
Qed.

Lemma compare_gt_lt s1 s2 : String.compare s1 s2 = Gt <-> String.compare s2 s1 = Lt.
Proof.
  rewrite (String.compare_antisym s1 s2).
  destruct (String.compare s2 s1); simpl; split; congruence.
Qed.

Lemma leb_false_flip s1 s2 : String.leb s1 s2 = false -> String.leb s2 s1 = true.
Proof. destruct (String.leb_total s1 s2); congruence. Qed.

Lemma leb_trans s1 s2 s3 :
  String.leb s1 s2 = true -> String.leb s2 s3 = true -> String.leb s1 s3 = true.
Proof.
  unfold String.leb.
  destruct (String.compare s1 s2) eqn:H12; try discriminate;
    destruct (String.compare s2 s3) eqn:H23; try discriminate; intros _ _.
  - apply String.compare_eq_iff in H12, H23. subst. rewrite compare_refl. reflexivity.
  - apply String.compare_eq_iff in H12. subst. rewrite H23. reflexivity.
  - apply String.compare_eq_iff in H23. subst. rewrite H12. reflexivity.
  - rewrite (compare_lt_trans _ _ _ H12 H23). reflexivity.
Qed.

End TextOrder.

(* ================================================================== *)
(** ** Dates as text *)
(* ================================================================== *)

Module DateText.

Lemma digit_of_range c a : digit_of c = Some a -> 0 <= a <= 9.
Proof.
  unfold digit_of. destruct (_ && _) eqn:H; [|discriminate].
  intros [= <-]. apply andb_true_iff in H. lia.
Qed.

Lemma digit_char_of c a : digit_of c = Some a -> digit_char a = c.
Proof.
  unfold digit_of, digit_char. destruct (_ && _) eqn:H; [|discriminate].
  intros [= <-].
  replace (48 + (Z.of_N (N_of_ascii c) - 48)) with (Z.of_N (N_of_ascii c)) by lia.
  rewrite N2Z.id. apply ascii_N_embedding.
Qed.

Lemma digit_of_char a : 0 <= a <= 9 -> digit_of (digit_char a) = Some a.
Proof.
  intro H.
  assert (C : a = 0 \/ a = 1 \/ a = 2 \/ a = 3 \/ a = 4 \/ a = 5 \/ a = 6 \/ a = 7
              \/ a = 8 \/ a = 9) by lia.
  repeat (destruct C as [->|C]; [reflexivity|]). subst. reflexivity.
Qed.

(** Opens a successful [parse_iso s]: the ten characters of [s], the
    digits read from them and the date they make. *)
Ltac open_parse_iso H s d :=
  unfold parse_iso in H;
  destruct s as [|? [|? [|? [|? [|? [|? [|? [|? [|? [|? [|? ?]]]]]]]]]]];
  try discriminate H;
  repeat match type of H with
    | context [digit_of ?c] =>
        let a := fresh "n" in
        let E := fresh "Dg" in
        destruct (digit_of c) as [a|] eqn:E; [|discriminate H];
        pose proof (digit_of_range _ _ E)
    end;
  repeat match type of H with
    | context [is_dash ?c] =>
        let E := fresh "Ds" in
        destruct (is_dash c) eqn:E; [|discriminate H];
        apply Ascii.eqb_eq in E; subst c
    end;
  cbn [andb] in H;
  match type of H with
  | Some ?x = Some _ => assert (d = x) by congruence; subst d; clear H
  end.

Ltac digits := Z.to_euclidean_division_equations; lia.

(** The text [parse_iso] accepts is the ISO text of the date it reads. *)
Lemma isoformat_parse_iso s d : parse_iso s = Some d -> isoformat d = s.
Proof.
  intro H. open_parse_iso H s d.
  unfold isoformat, pad4, pad2; cbn [year month day].
  replace ((1000 * n + 100 * n0 + 10 * n1 + n2) / 1000) with n by digits.
  replace ((1000 * n + 100 * n0 + 10 * n1 + n2) / 100 mod 10) with n0 by digits.
  replace ((1000 * n + 100 * n0 + 10 * n1 + n2) / 10 mod 10) with n1 by digits.
  replace ((1000 * n + 100 * n0 + 10 * n1 + n2) mod 10) with n2 by digits.
  replace ((10 * n3 + n4) / 10) with n3 by digits.
  replace ((10 * n3 + n4) mod 10) with n4 by digits.
  replace ((10 * n5 + n6) / 10) with n5 by digits.
  replace ((10 * n5 + n6) mod 10) with n6 by digits.
  repeat match goal with
         | E : digit_of ?c = Some ?a |- _ => rewrite (digit_char_of c a E); clear E
         end.
  reflexivity.
Qed.

(** The ISO text of a calendar date reads back as that date. *)
Lemma parse_iso_isoformat d : valid_date d = true -> parse_iso (isoformat d) = Some d.
Proof.
  unfold valid_date. destruct d as [y m dd]. cbn [year month day].
  rewrite !andb_true_iff. intros [[[[[Hy1 Hy2] Hm1] Hm2] Hd1] Hd2].
  assert (Hdim : days_in_month y m <= 31).
  { unfold days_in_month. repeat match goal with |- context [if ?b then _ else _] =>
                                          destruct b end; lia. }
  unfold isoformat, pad4, pad2, parse_iso. cbn [year month day append].
  rewrite !digit_of_char by digits.
  replace (is_dash "-"%char) with true by reflexivity. cbn [andb].
  f_equal. f_equal; digits.
Qed.

(** The text of a calendar date is canonical, and a canonical text is the
    text of the calendar date it spells. *)
Lemma canonical_isoformat d : valid_date d = true -> canonical_date (isoformat d) = true.
Proof. intro H. unfold canonical_date. rewrite (parse_iso_isoformat d H). exact H. Qed.

Lemma canonical_date_spells s :
  canonical_date s = true ->
  exists d, parse_iso s = Some d /\ valid_date d = true /\ isoformat d = s.
Proof.
  unfold canonical_date. destruct (parse_iso s) as [d|] eqn:E; [|discriminate].
  intro Hv. exists d. split; [reflexivity|]. split; [exact Hv|].
  apply isoformat_parse_iso. exact E.
Qed.

Lemma isoformat_inj d d' :
  valid_date d = true -> valid_date d' = true -> isoformat d = isoformat d' -> d = d'.
Proof.
  intros H H' E. apply parse_iso_isoformat in H, H'. rewrite E, H' in H. congruence.
Qed.

(** A year of four digits is written by [Period] as [isoformat] writes
    it. *)
Lemma year_str_pad4 y : 1000 <= y <= 9999 -> year_str y = pad4 y.
Proof.
  intro H.
  assert (E : forallb (fun n => String.eqb (year_str (1000 + Z.of_nat n))
                                    (pad4 (1000 + Z.of_nat n)))
                (seq 0 (Z.to_nat 9000)) = true) by (vm_compute; reflexivity).
  rewrite forallb_forall in E. specialize (E (Z.to_nat (y - 1000))).
  rewrite Z2Nat.id in E by lia. replace (1000 + (y - 1000)) with y in E by lia.
  apply String.eqb_eq, E, in_seq. lia.
Qed.


(** Before the year 1000 it is not: the year 999 is written [999]. *)
Lemma period_str_year_999 :
  valid_date (Date 999 6 1) = true
  /\ isoformat (Date 999 6 1) = "0999-06-01"
  /\ period_str (Date 999 6 1) = "999-06".
Proof. repeat split. Qed.

Lemma ascii_compare_digits c c' a a' :
  digit_of c = Some a -> digit_of c' = Some a' -> Ascii.compare c c' = (a ?= a').
Proof.
  unfold digit_of. destruct (_ && _); [|discriminate].
  destruct (_ && _); [|discriminate]. intros [= <-] [= <-].
  unfold Ascii.compare. rewrite <- N2Z.inj_compare.
  destruct (Z.compare_spec (Z.of_N (N_of_ascii c)) (Z.of_N (N_of_ascii c')));
    destruct (Z.compare_spec (Z.of_N (N_of_ascii c) - 48) (Z.of_N (N_of_ascii c') - 48));
    try reflexivity; lia.
Qed.

Lemma date_le_iff y m d y' m' d' :
  date_le (Date y m d) (Date y' m' d') = true
  <-> y < y' \/ (y = y' /\ (m < m' \/ (m = m' /\ d <= d'))).
Proof.
  unfold date_le; cbn [year month day].
  rewrite !orb_true_iff, !andb_true_iff, !orb_true_iff, !andb_true_iff,
    !Z.ltb_lt, !Z.eqb_eq, Z.leb_le. tauto.
Qed.

(** On ISO texts the byte order is the order of the calendar. *)
Lemma leb_iso_dates s1 s2 d1 d2 :
  parse_iso s1 = Some d1 -> parse_iso s2 = Some d2 ->
  String.leb s1 s2 = date_le d1 d2.
Proof.
  intros H1 H2. open_parse_iso H1 s1 d1. open_parse_iso H2 s2 d2.
  unfold String.leb. cbn [String.compare].
  repeat match goal with
         | E : digit_of ?c = Some ?a, E' : digit_of ?c' = Some ?a'
           |- context [Ascii.compare ?c ?c'] =>
             rewrite (ascii_compare_digits c c' a a' E E')
         end.
  rewrite !TextOrder.ascii_compare_refl.
  repeat match goal with
         | |- context [?a ?= ?b] => destruct (Z.compare_spec a b)
         end;
    first [ symmetry; apply date_le_iff; lia
          | symmetry; apply not_true_is_false; rewrite date_le_iff; lia ].
Qed.

Lemma digit_char_compare a b :
  0 <= a <= 9 -> 0 <= b <= 9 -> Ascii.compare (digit_char a) (digit_char b) = (a ?= b).
Proof.
  intros Ha Hb. apply ascii_compare_digits; apply digit_of_char; assumption.
Qed.

Lemma pad4_compare y y' r r' :
  0 <= y <= 9999 -> 0 <= y' <= 9999 ->
  String.compare (pad4 y ++ r) (pad4 y' ++ r')
  = match y ?= y' with
    | Eq => String.compare r r'
    | c => c
    end.
Proof.
  intros H H'. unfold pad4. cbn [append String.compare].
  rewrite !digit_char_compare by digits.
  repeat match goal with
         | |- context [?a ?= ?b] => destruct (Z.compare_spec a b)
         end; try reflexivity; exfalso; digits.
Qed.

Lemma pad2_compare m m' :
  0 <= m <= 99 -> 0 <= m' <= 99 ->
  String.compare (pad2 m) (pad2 m') = (m ?= m').
Proof.
  intros H H'. unfold pad2. cbn [String.compare].
  rewrite !digit_char_compare by digits.
  repeat match goal with
         | |- context [?a ?= ?b] => destruct (Z.compare_spec a b)
         end; try reflexivity; exfalso; digits.
Qed.

Lemma date_le_month d1 d2 : date_le d1 d2 = true -> month_lt d2 d1 = false.
Proof.
  destruct d1 as [y m d], d2 as [y' m' d']. rewrite date_le_iff. intro H.
  apply not_true_is_false. unfold month_lt. cbn [year month].
  rewrite orb_true_iff, andb_true_iff, !Z.ltb_lt, Z.eqb_eq. lia.
Qed.

Lemma four_digit_year_spells s :
  four_digit_year s = true ->
  exists d, parse_iso s = Some d /\ valid_date d = true /\ 1000 <= year d
            /\ isoformat d = s /\ canonical_date s = true.
Proof.
  unfold four_digit_year, canonical_date.
  destruct (parse_iso s) as [d|] eqn:E; [|discriminate].
  intro H. apply andb_true_iff in H. destruct H as [Hv Hy]. apply Z.leb_le in Hy.
  exists d. repeat split; try assumption. apply isoformat_parse_iso. exact E.
Qed.

(** From the year 1000 on, the byte order of month keys is the order of
    the calendar. *)
Lemma period_str_lt d1 d2 :
  valid_date d1 = true -> valid_date d2 = true ->
  1000 <= year d1 -> 1000 <= year d2 ->
  (key_lt (period_str d1) (period_str d2) <-> month_lt d1 d2 = true).
Proof.
  intros H1 H2 Hy1 Hy2. unfold valid_date in H1, H2.
  rewrite !andb_true_iff in H1, H2.
  destruct H1 as [[[[[A1 A2] A3] A4] _] _], H2 as [[[[[B1 B2] B3] B4] _] _].
  apply Z.leb_le in A2, A3, A4, B2, B3, B4.
  unfold key_lt, period_str, month_lt.
  rewrite !year_str_pad4 by lia. rewrite pad4_compare by lia.
  cbn [append String.compare]. rewrite TextOrder.ascii_compare_refl.
  rewrite pad2_compare by lia.
  rewrite orb_true_iff, andb_true_iff, !Z.ltb_lt, Z.eqb_eq.
  destruct (Z.compare_spec (year d1) (year d2));
    destruct (Z.compare_spec (month d1) (month d2));
    split; intro; try discriminate; try reflexivity; lia.
Qed.

End DateText.

(* ================================================================== *)
(** ** Transactions *)
(* ================================================================== *)

Module Ordering.

Lemma insert_by_date_perm r l : Permutation (insert_by_date r l) (r :: l).
Proof.
  induction l as [|r' l IH]; simpl; [reflexivity|].
  destruct (String.leb (t_date r) (t_date r')); [reflexivity|].
  rewrite IH. apply perm_swap.
Qed.

Lemma order_by_date_perm l : Permutation (order_by_date l) l.
Proof.
  induction l as [|r l IH]; simpl; [reflexivity|].
  rewrite insert_by_date_perm. constructor. exact IH.
Qed.

Lemma insert_by_date_sorted r l :
  StronglySorted by_date l -> StronglySorted by_date (insert_by_date r l).
Proof.
  induction 1 as [|r' l Hl IH Hr']; simpl.
  - repeat constructor.
  - destruct (String.leb (t_date r) (t_date r')) eqn:E.
    + constructor; [constructor; assumption|].
      constructor; [exact E|].
      eapply Forall_impl; [|exact Hr']. intros x Hx.
      unfold by_date in *. eapply TextOrder.leb_trans; eassumption.
    + constructor; [exact IH|].
      eapply Permutation_Forall; [symmetry; apply insert_by_date_perm|].
      constructor; [|exact Hr'].
      apply TextOrder.leb_false_flip. exact E.
Qed.

Lemma order_by_date_sorted l : StronglySorted by_date (order_by_date l).
Proof.
  induction l as [|r l IH]; simpl; [constructor|].
  apply insert_by_date_sorted. exact IH.
Qed.

End Ordering.

Module Frame.

Lemma with_columns_spec df : forall dates months,
  List.length dates = List.length df ->
  List.length months = List.length df ->
  map r_date (with_columns df dates months) = dates
  /\ map r_Month (with_columns df dates months) = months
  /\ map kept_columns (with_columns df dates months) = map selected_columns df.
Proof.
  induction df as [|r df IH]; intros [|d dates] [|m months]; simpl;
    try discriminate; intros Hd Hm; [repeat split|].
  injection Hd as Hd. injection Hm as Hm.
  destruct (IH dates months Hd Hm) as [E1 [E2 E3]].
  rewrite E1, E2, E3. repeat split.
Qed.

Lemma with_columns_nil df dates months :
  with_columns df dates months = [] -> df = [] \/ dates = [] \/ months = [].
Proof.
  destruct df; [auto|]. destruct dates; [auto|]. destruct months; [auto|]. discriminate.
Qed.

(** The months of a frame with a row are the texts of [month_text]. *)
Lemma with_columns_months pd df dates cells f :
  In f (with_columns df dates (map (month_text pd) cells)) ->
  exists cell, r_Month f = month_text pd cell.
Proof.
  revert dates cells. induction df as [|r df IH]; intros [|d dates] [|c cells]; simpl;
    try contradiction.
  intros [<-|H]; [exists c; reflexivity | eapply IH; exact H].
Qed.


(** [fetch_tx] on a migrated table. *)
Lemma fetch_tx_eq pd user_id s t :
  transactions s = Some t ->
  tx_has_user_id t = true ->
  fetch_tx pd user_id s =
    match order_by_date (filter (owned_by user_id) (tx_rows t)) with
    | [] => Ok ([], s)
    | r :: rest =>
        match date_column pd (map stored_date (r :: rest)) with
        | None => Raise ValueError
        | Some dates =>
            match month_column pd dates with
            | None => Raise ValueError
            | Some months => Ok (with_columns (r :: rest) dates months, s)
            end
        end
    end.
Proof.
  intros Ht Hcol. unfold fetch_tx, bind, select_tx_of, ret, raise. rewrite Ht, Hcol.
  cbn [negb]. destruct (order_by_date _) as [|r rest]; [reflexivity|].
  destruct (date_column pd _) as [dates|]; [|reflexivity].
  destruct (month_column pd dates); reflexivity.
Qed.

(** Whenever [fetch_tx] returns, the store is as it was, the table is the
    migrated one, and the frame is empty or made of the selected rows and
    the two columns. *)
Lemma fetch_tx_inv pd user_id s df s' :
  fetch_tx pd user_id s = Ok (df, s') ->
  s' = s
  /\ exists t,
      transactions s = Some t /\ tx_has_user_id t = true
      /\ ((order_by_date (filter (owned_by user_id) (tx_rows t)) = [] /\ df = [])
          \/ exists dates months,
              date_column pd
                (map stored_date (order_by_date (filter (owned_by user_id) (tx_rows t))))
              = Some dates
              /\ month_column pd dates = Some months
              /\ df = with_columns (order_by_date (filter (owned_by user_id) (tx_rows t)))
                        dates months).
Proof.
  unfold fetch_tx, bind, select_tx_of, ret, raise.
  destruct (transactions s) as [t|]; [|discriminate].
  destruct (tx_has_user_id t) eqn:Hcol; [|discriminate]. cbn [negb].
  destruct (order_by_date _) as [|r rest] eqn:E.
  - intros [= <- <-]. split; [reflexivity|]. exists t. rewrite E. auto.
  - destruct (date_column pd _) as [dates|] eqn:D; [|discriminate].
    destruct (month_column pd dates) as [months|] eqn:Mo; [|discriminate].
    intros [= <- <-]. split; [reflexivity|]. exists t. rewrite E.
    split; [reflexivity|]. split; [exact Hcol|]. right. exists dates, months. auto.
Qed.


(** What lines 105 and 106 make of a column, when both go through: the
    days pandas read in it, written as dates and as months. *)
Lemma columns_read pd col dates months :
  pandas_ok pd ->
  date_column pd col = Some dates ->
  month_column pd dates = Some months ->
  exists days,
    to_datetime pd col = Some days
    /\ forallb holds_date days = true
    /\ List.length days = List.length col
    /\ dates = map (date_text pd) days
    /\ months = map (month_text pd) days.
Proof.
  intros [Hlen Hcan]. unfold date_column, month_column.
  destruct (to_datetime pd col) as [days|] eqn:E; [|discriminate].
  destruct (forallb holds_date days) eqn:Hd; [|discriminate]. intros [= <-].
  destruct (to_datetime pd (map (date_text pd) days)) as [cells|] eqn:E2; [|discriminate].
  intros [= <-]. rewrite (Hcan days cells Hd E2).
  exists days. split; [reflexivity|]. split; [exact Hd|].
  split; [apply Hlen; exact E|]. split; reflexivity.
Qed.

Lemma dates_read_true pd rows :
  dates_read pd rows = true ->
  exists dates months,
    date_column pd (map stored_date rows) = Some dates
    /\ month_column pd dates = Some months.
Proof.
  unfold dates_read. destruct (date_column pd _) as [dates|]; [|discriminate].
  destruct (month_column pd dates) as [months|] eqn:E; [|discriminate].
  intros _. exists dates, months. split; [reflexivity | exact E].
Qed.

(** Canonical dates are the texts of the days they spell. *)
Lemma canonical_column pd rows :
  Forall (fun r => canonical_date (t_date r) = true) rows ->
  map stored_date rows = map (date_text pd) (map (fun r => parse_iso (t_date r)) rows)
  /\ forallb holds_date (map (fun r => parse_iso (t_date r)) rows) = true.
Proof.
  induction 1 as [|r rows Hr _ [IH1 IH2]]; [split; reflexivity|].
  destruct (DateText.canonical_date_spells _ Hr) as [d [Hp [Hv Hi]]].
  cbn [map forallb]. rewrite <- IH1, IH2, Hp. cbn [date_text holds_date].
  rewrite Hi, Hv. split; reflexivity.
Qed.

(** The frame of rows with canonical dates: the dates as stored. *)
Lemma with_columns_canonical pd rows :
  Forall (fun r => canonical_date (t_date r) = true) rows ->
  with_columns rows (map stored_date rows)
    (map (month_text pd) (map (fun r => parse_iso (t_date r)) rows))
  = map frame_row_of rows.
Proof.
  induction 1 as [|r rows Hr _ IH]; [reflexivity|].
  destruct (DateText.canonical_date_spells _ Hr) as [d [Hp _]].
  cbn [map with_columns]. rewrite IH. unfold frame_row_of, stored_date. rewrite Hp.
  reflexivity.
Qed.


(** [fetch_tx] on rows with canonical dates, when it returns. *)
Lemma fetch_tx_canonical pd user_id s t df s' :
  pandas_ok pd ->
  transactions s = Some t ->
  Forall (fun r => owned_by user_id r = true -> canonical_date (t_date r) = true)
    (tx_rows t) ->
  fetch_tx pd user_id s = Ok (df, s') ->
  s' = s
  /\ df = map frame_row_of (order_by_date (filter (owned_by user_id) (tx_rows t))).
Proof.
  intros Hok Ht Hcan H. destruct (fetch_tx_inv _ _ _ _ _ H) as [-> [t' [Ht' [_ Hdf]]]].
  split; [reflexivity|]. assert (t' = t) by congruence. subst t'.
  destruct Hdf as [[-> ->]|[dates [months [Hd [Hm ->]]]]]; [reflexivity|].
  assert (Hsel : Forall (fun r => canonical_date (t_date r) = true)
                   (order_by_date (filter (owned_by user_id) (tx_rows t)))).
  { eapply Permutation_Forall; [symmetry; apply Ordering.order_by_date_perm|].
    rewrite Forall_forall in *. intros r Hr. apply filter_In in Hr. destruct Hr. auto. }
  destruct (columns_read _ _ _ _ Hok Hd Hm) as [days [Hdays [_ [_ [-> ->]]]]].
  destruct (canonical_column pd _ Hsel) as [Ecol Hhold].
  rewrite Ecol in Hdays. apply (proj2 Hok _ _ Hhold) in Hdays. subst days.
  rewrite <- Ecol. apply with_columns_canonical. exact Hsel.
Qed.

(** [fetch_tx] when pandas reads the dates: one frame row for each
    selected row, with the days pandas read. *)
Lemma fetch_tx_read pd user_id s t :
  pandas_ok pd ->
  transactions s = Some t ->
  tx_has_user_id t = true ->
  dates_read pd (order_by_date (filter (owned_by user_id) (tx_rows t))) = true ->
  exists days df,
    to_datetime pd (map stored_date (order_by_date (filter (owned_by user_id) (tx_rows t))))
    = Some days
    /\ forallb holds_date days = true
    /\ fetch_tx pd user_id s = Ok (df, s)
    /\ map kept_columns df
       = map selected_columns (order_by_date (filter (owned_by user_id) (tx_rows t)))
    /\ map r_date df = map (date_text pd) days
    /\ map r_Month df = map (month_text pd) days.
Proof.
  intros Hok Ht Hcol Hyes. pose proof (fetch_tx_eq pd user_id s t Ht Hcol) as Hf.
  set (rows := order_by_date (filter (owned_by user_id) (tx_rows t))) in *.
  destruct (dates_read_true _ _ Hyes) as [dates [months [Hd Hm]]].
  destruct (columns_read _ _ _ _ Hok Hd Hm) as [days [Hdays [Hhold [Hlen [-> ->]]]]].
  rewrite length_map in Hlen.
  assert (L1 : List.length (map (date_text pd) days) = List.length rows)
    by (rewrite length_map; exact Hlen).
  assert (L2 : List.length (map (month_text pd) days) = List.length rows)
    by (rewrite length_map; exact Hlen).
  destruct (with_columns_spec rows _ _ L1 L2) as [E1 [E2 E3]].
  exists days, (with_columns rows (map (date_text pd) days) (map (month_text pd) days)).
  split; [exact Hdays|]. split; [exact Hhold|].
  split; [|split; [exact E3|split; [exact E1 | exact E2]]].
  rewrite Hf. clear Hf E1 E2 E3 L1 L2 Hyes. destruct rows as [|r rest].
  - destruct days; [reflexivity | discriminate].
  - rewrite Hd, Hm. reflexivity.
Qed.

(** [fetch_tx] when pandas does not read the dates of the rows there are. *)
Lemma fetch_tx_unread pd user_id s t :
  transactions s = Some t ->
  tx_has_user_id t = true ->
  order_by_date (filter (owned_by user_id) (tx_rows t)) <> [] ->
  dates_read pd (order_by_date (filter (owned_by user_id) (tx_rows t))) = false ->
  fetch_tx pd user_id s = Raise ValueError.
Proof.
  intros Ht Hcol Hne Hno. rewrite (fetch_tx_eq pd user_id s t Ht Hcol).
  unfold dates_read in Hno.
  destruct (order_by_date _) as [|r rest]; [contradiction|].
  destruct (date_column pd _) as [dates|]; [|reflexivity].
  destruct (month_column pd dates); [discriminate | reflexivity].
Qed.

(** After the backfill every row is the seed user's. *)
Lemma filter_seed_user rows :
  filter (owned_by 1) (map to_seed_user rows) = map to_seed_user rows.
Proof. induction rows as [|r rows IH]; simpl; [|rewrite IH]; reflexivity. Qed.

End Frame.


(** C8: on the migrated table [delete_tx] never raises; the rows that go
    are those whose id is the given one and whose [user_id] is the given
    user, every other row stays, [users] is untouched; when no row has both
    (the id is unknown, or the row is another user's) the store is
    unchanged. *)
Theorem delete_tx_scoped (s : db) (t : tx_table) (user_id tx_id : Z) :
  transactions s = Some t ->
  tx_has_user_id t = true ->
  exists rows',
    delete_tx user_id tx_id s = Ok (tt, Db (users s) (Some (TxTable true rows' (tx_seq t))))
    /\ (forall r, In r rows' <->
                  In r (tx_rows t) /\ ~ (t_id r = tx_id /\ t_user_id r = Some user_id))
    /\ ((forall r, In r (tx_rows t) -> t_id r = tx_id -> t_user_id r <> Some user_id) ->
        delete_tx user_id tx_id s = Ok (tt, s)).
Proof.
  intros Ht Hcol.
  assert (Hhit : forall r, (t_id r =? tx_id) && owned_by user_id r = true
                           <-> t_id r = tx_id /\ t_user_id r = Some user_id).
  { intro r. unfold owned_by. rewrite andb_true_iff, Z.eqb_eq.
    destruct (t_user_id r) as [u|]; [rewrite Z.eqb_eq|]; split; intros [H1 H2];
      split; congruence. }
  unfold delete_tx, delete_where_id_user. rewrite Ht, Hcol. cbn [negb].
  eexists. split; [reflexivity|]. split.
  - intro r. rewrite filter_In, negb_true_iff, <- Hhit.
    destruct ((t_id r =? tx_id) && owned_by user_id r); intuition congruence.
  - intro Hnone. destruct s as [us txs]. simpl in *. subst txs.
    destruct t as [col rows seq]. simpl in *. subst col.
    replace (filter _ rows) with rows; [reflexivity|].
    symmetry. apply forallb_filter_id. apply forallb_forall. intros r Hr.
    apply negb_true_iff, not_true_is_false. rewrite Hhit. intros [E1 E2].
    exact (Hnone r Hr E1 E2).
Qed.

(* ================================================================== *)
(** ** The schema manager *)
(* ================================================================== *)

Module Schema.

Lemma ensure_schema_eq s :
  ensure_schema s = Ok (tt, Db (Some (seeded (users s))) (Some (migrated (transactions s)))).
Proof.
  destruct s as [[[[|u us] q]|] [[[|] rows q']|]];
    unfold ensure_schema, bind, create_table_users, select_count_users, insert_user,
      create_table_transactions, table_info_transactions, alter_add_user_id,
      backfill_user_id, ret, seeded, migrated;
    cbn; rewrite ?map_map; reflexivity.
Qed.

Lemma seeded_fixed us : seeded (Some (seeded us)) = seeded us.
Proof. destruct us as [[[|u l] q]|]; reflexivity. Qed.

Lemma migrated_fixed txs : migrated (Some (migrated txs)) = migrated txs.
Proof. destruct txs as [[[|] rows q]|]; reflexivity. Qed.

Lemma seeded_wf us :
  match us with Some t => users_wf t | None => True end -> users_wf (seeded us).
Proof.
  destruct us as [[[|u l] q]|]; simpl; auto;
    intros _; split; simpl; repeat constructor; simpl; tauto.
Qed.

Lemma ensure_schema_wf s :
  db_wf s -> exists s', ensure_schema s = Ok (tt, s') /\ db_wf s'.
Proof.
  intro H. eexists. split; [apply ensure_schema_eq|].
  unfold db_wf in *. cbn [users]. apply seeded_wf. exact H.
Qed.

End Schema.

(** C5: [ensure_schema] never raises and a second run changes nothing, for
    every store: no second seed user, no transaction row altered. On the
    empty store, and on a store whose [users] table is empty, it leaves
    exactly one user, [admin], whose password is [hash_pwd "admin"]. *)
Theorem ensure_schema_idempotent :
  (forall s, exists s1,
        ensure_schema s = Ok (tt, s1) /\ ensure_schema s1 = Ok (tt, s1))
  /\ ensure_schema empty_db =
       Ok (tt, Db (Some (UsersTable [User 1 "admin" (hash_pwd "admin")] 1))
                  (Some (TxTable true [] 0)))
  /\ (forall seq txs, exists i txs',
         ensure_schema (Db (Some (UsersTable [] seq)) txs) =
           Ok (tt, Db (Some (UsersTable [User i "admin" (hash_pwd "admin")] i)) txs'))
  /\ hash_pwd "admin" = "8c6976e5b5410415bde908bd4dee15dfb167a9c873fc4bb8a81f6f2ab448a918".
Proof.
  split; [|split; [|split]].
  - intro s. eexists. split; [apply Schema.ensure_schema_eq|].
    rewrite Schema.ensure_schema_eq. cbn [users transactions].
    rewrite Schema.seeded_fixed, Schema.migrated_fixed. reflexivity.
  - rewrite Schema.ensure_schema_eq. reflexivity.
  - intros seq txs. rewrite Schema.ensure_schema_eq. do 2 eexists. reflexivity.
  - vm_compute. reflexivity.
Qed.

(* ================================================================== *)
(** ** The pandas of the examples *)
(* ================================================================== *)

Module Examples.

Lemma read_column_length read col : forall cells,
  read_column read col = Some cells -> List.length cells = List.length col.
Proof.
  induction col as [|c col IH]; simpl; intros cells H.
  - injection H as <-. reflexivity.
  - destruct (read_column read col) as [rest|]; [|discriminate].
    specialize (IH rest eq_refl).
    destruct c as [x|]; [|injection H as <-; simpl; congruence].
    destruct (no_date (Some x)); [injection H as <-; simpl; congruence|].
    destruct (read x); [|discriminate]. injection H as <-. simpl. congruence.
Qed.

Lemma example_same_length col cells :
  example_to_datetime col = Some cells -> List.length cells = List.length col.
Proof.
  unfold example_to_datetime.
  destruct (read_column read_day col) as [c|] eqn:E.
  - intros [= <-]. eapply read_column_length; exact E.
  - apply read_column_length.
Qed.

(** The text of a date is not one of the texts without a date. *)
Lemma isoformat_dated d : no_date (Some (isoformat d)) = false.
Proof.
  unfold no_date, isoformat, pad4. cbn [append String.eqb orb].
  repeat match goal with
         | |- context [Ascii.eqb ?a ?b] => destruct (Ascii.eqb a b)
         end; reflexivity.
Qed.

Lemma isoformat_length d : String.length (isoformat d) = 10%nat.
Proof. reflexivity. Qed.

Lemma read_day_isoformat d d' : valid_date d = true -> read_day (isoformat d) = Some d' -> d' = d.
Proof.
  intro Hv. unfold read_day. rewrite (DateText.parse_iso_isoformat d Hv).
  destruct (_ && _); congruence.
Qed.

Lemma read_day_time_isoformat d : read_day_time (isoformat d) = None.
Proof. unfold read_day_time. rewrite isoformat_length. reflexivity. Qed.

(** A column of dates and of cells without one is read by a reader of
    dates as written, and by another reader only if it holds no date. *)
Lemma read_column_canonical na read days :
  no_date na = true ->
  (forall d d', valid_date d = true -> read (isoformat d) = Some d' -> d' = d) ->
  forallb holds_date days = true ->
  forall cells,
    read_column read
      (map (fun cell => match cell with Some d => Some (isoformat d) | None => na end) days)
    = Some cells ->
    cells = days.
Proof.
  intros Hna Hread. induction days as [|c days IH]; simpl; intros Hh cells H.
  - congruence.
  - apply andb_true_iff in Hh. destruct Hh as [Hc Hh].
    destruct (read_column read _) as [rest|]; [|discriminate].
    specialize (IH Hh rest eq_refl). subst rest.
    destruct c as [d|].
    + rewrite isoformat_dated in H. destruct (read (isoformat d)) as [d'|] eqn:E; [|discriminate].
      injection H as <-. rewrite (Hread d d' Hc E). reflexivity.
    + destruct na as [x|]; [|congruence]. rewrite Hna in H. congruence.
Qed.

Lemma example_reads_canonical na days cells :
  no_date na = true ->
  forallb holds_date days = true ->
  example_to_datetime
    (map (fun cell => match cell with Some d => Some (isoformat d) | None => na end) days)
  = Some cells ->
  cells = days.
Proof.
  intros Hna Hh. unfold example_to_datetime.
  destruct (read_column read_day _) as [c|] eqn:E.
  - intros [= <-]. eapply read_column_canonical; [exact Hna | | exact Hh | exact E].
    apply read_day_isoformat.
  - apply read_column_canonical; [exact Hna | | exact Hh].
    intros d d' _ H. rewrite read_day_time_isoformat in H. discriminate.
Qed.

Lemma pd_nat_text_ok : pandas_ok pd_nat_text.
Proof.
  split.
  - intros col cells. apply example_same_length.
  - intros days cells Hh H. eapply (example_reads_canonical (Some "NaT")); eauto.
Qed.

Lemma pd_nat_missing_ok : pandas_ok pd_nat_missing.
Proof.
  split.
  - intros col cells. apply example_same_length.
  - intros days cells Hh H. eapply (example_reads_canonical None); eauto.
Qed.

End Examples.

(** C4 as stated does not hold. The backfill writes [user_id = 1], but
    the seed user has another id when the [users] table was there and
    empty with a counter that had moved on: the rows then belong to no
    user. And [fetch_tx] for user 1 returns the rows only if pandas reads
    their dates: it raises on a text that is not a date. *)
Lemma ensure_schema_backfill_astray :
  (exists s',
      ensure_schema db_reseeded = Ok (tt, s')
      /\ transactions s'
         = Some (TxTable true [Tx 1 "2024-01-15" "salary" 1000%float (Some 1)] 1)
      /\ users s' = Some (UsersTable [User 4 "admin" (hash_pwd "admin")] 4)
      /\ get_username 1 s' = Ok ("unknown", s'))
  /\ pandas_ok pd_nat_text
  /\ ensure_schema db_legacy_unread = Ok (tt, db_unread)
  /\ fetch_tx pd_nat_text 1 db_unread = Raise ValueError.
Proof.
  split; [|split; [exact Examples.pd_nat_text_ok|split]].
  - eexists. split; [apply Schema.ensure_schema_eq|]. repeat split.
  - rewrite Schema.ensure_schema_eq. reflexivity.
  - reflexivity.
Qed.

(** C4, amended: when [transactions] exists without a [user_id] column,
    [ensure_schema] adds the column and leaves every row that was there as
    it was but for [user_id = 1], which is the id of the seed user when the
    run creates the [users] table. When pandas reads the dates of these
    rows, [fetch_tx] for user 1 returns a frame that has each of them, with
    its [id], [category] and [amount]; when it does not, [fetch_tx]
    raises [ValueError]. *)
Theorem ensure_schema_backfills (pd : pandas) (s : db) (t : tx_table) :
  pandas_ok pd ->
  transactions s = Some t ->
  tx_has_user_id t = false ->
  exists s',
    ensure_schema s = Ok (tt, s')
    /\ transactions s' = Some (TxTable true (map to_seed_user (tx_rows t)) (tx_seq t))
    /\ (users s = None ->
        users s' = Some (UsersTable [User 1 "admin" (hash_pwd "admin")] 1))
    /\ (dates_read pd (order_by_date (map to_seed_user (tx_rows t))) = true ->
        exists df,
          fetch_tx pd 1 s' = Ok (df, s')
          /\ forall r, In r (tx_rows t) ->
                       exists f, In f df
                                 /\ kept_columns f
                                    = (t_id r, t_category r, t_amount r, Some 1))
    /\ (tx_rows t <> [] ->
        dates_read pd (order_by_date (map to_seed_user (tx_rows t))) = false ->
        fetch_tx pd 1 s' = Raise ValueError).
Proof.
  intros Hok Ht Hcol. eexists. split; [apply Schema.ensure_schema_eq|].
  cbn [users transactions]. rewrite Ht. unfold migrated. rewrite Hcol.
  split; [reflexivity|]. split; [intros ->; reflexivity|].
  set (s' := Db _ _).
  set (t' := TxTable true (map to_seed_user (tx_rows t)) (tx_seq t)).
  assert (Ht' : transactions s' = Some t') by reflexivity.
  assert (Hcol' : tx_has_user_id t' = true) by reflexivity.
  assert (Erows : order_by_date (filter (owned_by 1) (tx_rows t'))
                  = order_by_date (map to_seed_user (tx_rows t))).
  { cbn [t' tx_rows]. rewrite Frame.filter_seed_user. reflexivity. }
  split.
  - intro Hyes. rewrite <- Erows in Hyes.
    destruct (Frame.fetch_tx_read pd 1 s' t' Hok Ht' Hcol' Hyes)
      as [days [df [_ [_ [Hfetch [E3 _]]]]]].
    exists df. split; [exact Hfetch|]. intros r Hr.
    assert (Hin : In (selected_columns (to_seed_user r)) (map kept_columns df)).
    { rewrite E3, Erows. apply in_map.
      eapply Permutation_in; [symmetry; apply Ordering.order_by_date_perm|].
      apply in_map. exact Hr. }
    apply in_map_iff in Hin. destruct Hin as [f [Ef Hf]]. exists f. auto.
  - intros Hne Hno. rewrite <- Erows in Hno.
    apply (Frame.fetch_tx_unread pd 1 s' t' Ht' Hcol'); [|exact Hno].
    rewrite Erows. intro E. apply Hne.
    assert (P : Permutation (map to_seed_user (tx_rows t)) [])
      by (rewrite <- E; symmetry; apply Ordering.order_by_date_perm).
    apply Permutation_sym, Permutation_nil in P. destruct (tx_rows t); [reflexivity | discriminate].
Qed.

(* ================================================================== *)
(** ** The monthly roll-up *)
(* ================================================================== *)

Module Rollup.

Lemma key_lt_irrefl k : ~ key_lt k k.
Proof. unfold key_lt. rewrite TextOrder.compare_refl. discriminate. Qed.

Lemma key_lt_neq a b : key_lt a b -> a <> b.
Proof. intros H ->. exact (key_lt_irrefl _ H). Qed.

Section Lookup.

Context {A : Type}.
Implicit Types (bs : list (string * A)) (v : A).

Lemma total_of_cons_ne k k' v bs : k' <> k -> total_of k ((k', v) :: bs) = total_of k bs.
Proof using Type.
  intro H. unfold total_of. simpl.
  destruct (String.eqb_spec k' k); [contradiction | reflexivity].
Qed.

Lemma total_of_cons_eq k v bs : total_of k ((k, v) :: bs) = Some v.
Proof using Type. unfold total_of. simpl. rewrite String.eqb_refl. reflexivity. Qed.

(** Below every key of a list, a key has no bucket in it. *)
Lemma total_of_below k bs : Forall (key_lt k) (map fst bs) -> total_of k bs = None.
Proof using Type.
  induction bs as [|[k' v] bs IH]; simpl; [reflexivity|].
  intro H. inversion H as [|? ? Hk Hbs]; subst.
  rewrite total_of_cons_ne by (apply not_eq_sym, key_lt_neq; exact Hk). auto.
Qed.

Lemma total_of_absent k bs : ~ In k (map fst bs) -> total_of k bs = None.
Proof using Type.
  induction bs as [|[k0 v] bs IH]; simpl; [reflexivity|].
  intro H. rewrite total_of_cons_ne.
  - apply IH. intro Hin. apply H. right. exact Hin.
  - intro E. apply H. left. exact E.
Qed.

(** With distinct keys a bucket is in the list exactly when the lookup
    finds it. *)
Lemma In_total_of k v bs :
  StronglySorted key_lt (map fst bs) ->
  (In (k, v) bs <-> total_of k bs = Some v).
Proof using Type.
  induction bs as [|[k0 v0] bs IH]; simpl; intro H.
  - unfold total_of. simpl. split; [intros [] | discriminate].
  - inversion H as [|? ? Hbs Hk0]; subst. specialize (IH Hbs).
    destruct (String.eqb_spec k0 k) as [->|Hne].
    + rewrite total_of_cons_eq. split.
      * intros [E|Hin]; [congruence|].
        exfalso. rewrite Forall_forall in Hk0.
        apply (key_lt_irrefl k). apply Hk0.
        change k with (fst (k, v)). apply in_map. exact Hin.
      * intros [= ->]. left. reflexivity.
    + rewrite total_of_cons_ne by assumption. rewrite <- IH.
      split; [intros [E|Hin]; [congruence | exact Hin] | auto].
Qed.

End Lookup.

Lemma bucket_add_keys k a bs x :
  In x (map fst (bucket_add k a bs)) <-> x = k \/ In x (map fst bs).
Proof.
  induction bs as [|[k' t] bs IH]; simpl; [intuition|].
  destruct (String.compare k k') eqn:E; simpl.
  - apply String.compare_eq_iff in E. subst. intuition.
  - intuition.
  - rewrite IH. intuition.
Qed.

Lemma bucket_add_sorted k a bs :
  StronglySorted key_lt (map fst bs) ->
  StronglySorted key_lt (map fst (bucket_add k a bs)).
Proof.
  induction bs as [|[k' t] bs IH]; simpl; intro H.
  - repeat constructor.
  - inversion H as [|? ? Hbs Hk']; subst.
    destruct (String.compare k k') eqn:E; simpl.
    + constructor; assumption.
    + constructor; [exact H|]. constructor; [exact E|].
      eapply Forall_impl; [|exact Hk']. intros x Hx.
      unfold key_lt in *. eapply TextOrder.compare_lt_trans; eassumption.
    + constructor; [apply IH; exact Hbs|].
      rewrite Forall_forall in *. intros x Hx.
      apply bucket_add_keys in Hx. destruct Hx as [->|Hx]; [|auto].
      apply TextOrder.compare_gt_lt. exact E.
Qed.

(** A row leaves the running sums of the other groups alone. *)
Lemma bucket_add_other k a bs k' :
  k' <> k -> total_of k' (bucket_add k a bs) = total_of k' bs.
Proof.
  intro Hne. induction bs as [|[k0 t] bs IH]; simpl.
  - apply total_of_cons_ne. auto.
  - destruct (String.compare k k0) eqn:E.
    + apply String.compare_eq_iff in E. subst k0.
      rewrite !total_of_cons_ne by auto. reflexivity.
    + apply total_of_cons_ne. auto.
    + destruct (String.eqb_spec k0 k') as [->|Hk0].
      * rewrite !total_of_cons_eq. reflexivity.
      * rewrite !total_of_cons_ne by assumption. exact IH.
Qed.

(** A row adds its amount to the running sum of its group. *)
Lemma bucket_add_same k a bs :
  StronglySorted key_lt (map fst bs) ->
  total_of k (bucket_add k a bs) =
    Some (kahan_add (match total_of k bs with
                     | Some acc => acc
                     | None => (0%float, 0%float)
                     end) a).
Proof.
  induction bs as [|[k0 t] bs IH]; simpl; intro H.
  - apply total_of_cons_eq.
  - inversion H as [|? ? Hbs Hk0]; subst.
    destruct (String.compare k k0) eqn:E.
    + apply String.compare_eq_iff in E. subst k0. rewrite !total_of_cons_eq. reflexivity.
    + rewrite total_of_cons_eq, total_of_below; [reflexivity|].
      simpl. constructor; [exact E|].
      eapply Forall_impl; [|exact Hk0]. intros x Hx.
      unfold key_lt in *. eapply TextOrder.compare_lt_trans; eassumption.
    + assert (Hne : k0 <> k).
      { apply key_lt_neq. apply TextOrder.compare_gt_lt. exact E. }
      rewrite !total_of_cons_ne by assumption. apply IH. exact Hbs.
Qed.

Lemma month_eq_dec (x y : option string) : {x = y} + {x <> y}.
Proof. decide equality. apply string_dec. Qed.

Lemma group_sum_snoc df r :
  group_sum (df ++ [r]) =
    match r_Month r with
    | Some k => bucket_add k (r_amount r) (group_sum df)
    | None => group_sum df
    end.
Proof. unfold group_sum. rewrite fold_left_app. reflexivity. Qed.

Lemma group_sum_sorted df : StronglySorted key_lt (map fst (group_sum df)).
Proof.
  induction df as [|r df IH] using rev_ind; [constructor|].
  rewrite group_sum_snoc. destruct (r_Month r); [apply bucket_add_sorted|]; exact IH.
Qed.

(** The groups are the months that occur. *)
Lemma group_sum_keys df k :
  In k (map fst (group_sum df)) <-> In (Some k) (map r_Month df).
Proof.
  induction df as [|r df IH] using rev_ind; [reflexivity|].
  rewrite group_sum_snoc, map_app, in_app_iff. simpl.
  destruct (r_Month r) as [m|].
  - rewrite bucket_add_keys, IH. split.
    + intros [->|H]; auto.
    + intros [H|[[= ->]|[]]]; auto.
  - rewrite IH. split; [auto|]. intros [H|[H|[]]]; [exact H | discriminate].
Qed.

Lemma month_totals_keys df : map fst (month_totals df) = map fst (group_sum df).
Proof. unfold month_totals. rewrite map_map. reflexivity. Qed.

Lemma month_totals_sorted df : StronglySorted key_lt (map fst (month_totals df)).
Proof. rewrite month_totals_keys. apply group_sum_sorted. Qed.

Lemma amounts_of_snoc k df r :
  amounts_of k (df ++ [r]) =
    (amounts_of k df ++ (if in_month k r then [r_amount r] else []))%list.
Proof.
  unfold amounts_of. rewrite filter_app, map_app. simpl.
  destruct (in_month k r); reflexivity.
Qed.

Lemma amounts_of_absent k df : ~ In (Some k) (map r_Month df) -> amounts_of k df = [].
Proof.
  unfold amounts_of. induction df as [|r df IH]; simpl; [reflexivity|].
  intro H. unfold in_month at 1. destruct (r_Month r) as [m|] eqn:Em.
  - destruct (String.eqb_spec m k) as [E|_].
    + exfalso. apply H. left. congruence.
    + apply IH. intro Hin. apply H. right. exact Hin.
  - apply IH. intro Hin. apply H. right. exact Hin.
Qed.

(** The running sum of a month that occurs is that of its rows' amounts,
    taken in row order. *)
Lemma group_sum_total df k :
  In (Some k) (map r_Month df) ->
  total_of k (group_sum df)
  = Some (fold_left kahan_add (amounts_of k df) (0%float, 0%float)).
Proof.
  induction df as [|r df IH] using rev_ind; [intros []|].
  rewrite map_app, in_app_iff. simpl. intro Hin.
  rewrite group_sum_snoc, amounts_of_snoc. unfold in_month.
  destruct (r_Month r) as [m|] eqn:Em.
  - destruct (String.eqb_spec m k) as [E|Hne].
    + subst m. rewrite bucket_add_same by apply group_sum_sorted.
      rewrite fold_left_app. simpl.
      destruct (in_dec month_eq_dec (Some k) (map r_Month df)) as [Hold|Hnew].
      * rewrite (IH Hold). reflexivity.
      * rewrite total_of_absent by (rewrite group_sum_keys; exact Hnew).
        rewrite (amounts_of_absent _ _ Hnew). reflexivity.
    + rewrite bucket_add_other by auto. rewrite app_nil_r. apply IH.
      destruct Hin as [Hin|[E|[]]]; [exact Hin | congruence].
  - rewrite app_nil_r. apply IH. destruct Hin as [Hin|[E|[]]]; [exact Hin | discriminate].
Qed.

Lemma month_totals_In df k t :
  In (k, t) (month_totals df)
  <-> In (Some k) (map r_Month df) /\ t = sum_amounts (amounts_of k df).
Proof.
  unfold month_totals, sum_amounts. rewrite in_map_iff. split.
  - intros [[k' acc] [[= -> <-] Hin]].
    apply (In_total_of k acc _ (group_sum_sorted df)) in Hin.
    assert (Hk : In (Some k) (map r_Month df)).
    { apply group_sum_keys.
      destruct (in_dec string_dec k (map fst (group_sum df))) as [Hi|Hout]; [exact Hi|].
      rewrite (total_of_absent _ _ Hout) in Hin. discriminate. }
    split; [exact Hk|]. rewrite (group_sum_total _ _ Hk) in Hin. congruence.
  - intros [Hk ->]. exists (k, fold_left kahan_add (amounts_of k df) (0%float, 0%float)).
    split; [reflexivity|].
    apply (In_total_of _ _ _ (group_sum_sorted df)). apply group_sum_total. exact Hk.
Qed.

(** The roll-up is empty exactly when no row has a month. *)
Lemma month_totals_nil df :
  month_totals df = [] <-> Forall (fun r => r_Month r = None) df.
Proof.
  split.
  - intro E. rewrite Forall_forall. intros r Hr.
    destruct (r_Month r) as [k|] eqn:Ek; [|reflexivity]. exfalso.
    assert (H : In k (map fst (month_totals df))).
    { rewrite month_totals_keys. apply group_sum_keys. rewrite <- Ek. apply in_map. exact Hr. }
    rewrite E in H. exact H.
  - intro H. destruct (month_totals df) as [|[k t] l] eqn:E; [reflexivity|]. exfalso.
    assert (Hk : In k (map fst (month_totals df))) by (rewrite E; left; reflexivity).
    rewrite month_totals_keys in Hk. apply group_sum_keys in Hk.
    apply in_map_iff in Hk. destruct Hk as [r [Er Hr]].
    rewrite Forall_forall in H. rewrite (H r Hr) in Er. discriminate.
Qed.

(** The roll-up of a frame in which a row has a month ends in the bucket
    of the greatest month, and [current_month] is that bucket's total. *)
Lemma current_month_last df :
  (exists r, In r df /\ r_Month r <> None) ->
  exists pre k t,
    month_totals df = (pre ++ [(k, t)])%list
    /\ current_month (month_totals df) = Ok t
    /\ Forall (fun b => key_lt (fst b) k) pre.
Proof.
  intros [r [Hr Hm]].
  assert (Hne : month_totals df <> []).
  { intro E. apply month_totals_nil in E. rewrite Forall_forall in E. exact (Hm (E r Hr)). }
  destruct (exists_last Hne) as [pre [[k t] E]].
  exists pre, k, t. split; [exact E|]. split.
  - unfold current_month. rewrite E, iloc_last_snoc. reflexivity.
  - pose proof (month_totals_sorted df) as Hs.
    rewrite E, map_app in Hs. simpl in Hs.
    apply sorted_last_greatest in Hs. rewrite Forall_map in Hs. exact Hs.
Qed.

(** The metric fails on a fetched frame only with [IndexError], and only
    when pandas has left the month of every row missing. *)
Lemma current_month_raises pd user_id s r df s' e :
  fetch_tx pd user_id s = Ok (r :: df, s') ->
  current_month (month_totals (r :: df)) = Raise e ->
  e = IndexError
  /\ period_na pd = None
  /\ Forall (fun f => r_Month f = None) (r :: df).
Proof.
  intros Hfetch Hc.
  assert (He : e = IndexError /\ month_totals (r :: df) = []).
  { unfold current_month, iloc_last in Hc.
    destruct (rev (month_totals (r :: df))) as [|b l] eqn:Er; [|discriminate].
    split; [congruence|].
    rewrite <- (rev_involutive (month_totals (r :: df))), Er. reflexivity. }
  destruct He as [-> Hnil]. split; [reflexivity|].
  apply month_totals_nil in Hnil. split; [|exact Hnil].
  destruct (Frame.fetch_tx_inv _ _ _ _ _ Hfetch) as [_ [t [_ [_ Hdf]]]].
  destruct Hdf as [[_ [=]]|[dates [months [_ [Hm Hdf]]]]].
  unfold month_column in Hm.
  destruct (to_datetime pd dates) as [cells|]; [|discriminate]. injection Hm as <-.
  assert (Hin : In r (r :: df)) by (left; reflexivity).
  rewrite Hdf in Hin. apply Frame.with_columns_months in Hin.
  destruct Hin as [cell Ecell]. inversion Hnil as [|? ? Hr _]; subst.
  rewrite Hr in Ecell. destruct cell; [discriminate|]. symmetry. exact Ecell.
Qed.

End Rollup.



(** With a pandas that leaves a cell without a date missing, the
    dashboard of a user whose rows all lack a date raises [IndexError]:
    the frame has a row, so the guard lets it through, and the roll-up has
    no bucket. *)
Lemma budget_ui_all_undated :
  pandas_ok pd_nat_missing
  /\ fetch_tx pd_nat_missing 1 db_undated
     = Ok ([Row 1 None "misc" 10%float (Some 1) None], db_undated)
  /\ budget_ui pd_nat_missing 1 db_undated = Raise IndexError.
Proof.
  split; [exact Examples.pd_nat_missing_ok|]. split; reflexivity.
Qed.

(* ================================================================== *)
(** ** The theorems at work on the example stores *)
(* ================================================================== *)

Lemma users_wf_example :
  users_wf (UsersTable [User 1 "admin" (hash_pwd "admin")] 1).
Proof. split; simpl; repeat constructor; simpl; tauto. Qed.

(** The seed user logs in with the default password on the example store. *)
Lemma authenticate_spec_witness :
  (exists r,
      authenticate "admin" "admin" db_example = Ok (r, db_example)
      /\ forall i,
          r = Some i <->
          exists u, In u [User 1 "admin" (hash_pwd "admin")] /\ u_username u = "admin"
                    /\ u_id u = i /\ u_password u = hash_pwd "admin")
  /\ (forall p q, p = q -> hash_pwd p = hash_pwd q).
Proof.
  apply (authenticate_spec db_example (UsersTable [User 1 "admin" (hash_pwd "admin")] 1)).
  - reflexivity.
  - exact users_wf_example.
Defined.

(** [alice] is created once on the example store. *)
Lemma create_user_twice_witness :
  create_user "alice" "pw1" db_example = Ok (true, db_alice)
  /\ create_user "alice" "pw2" db_alice = Ok (false, db_alice)
  /\ user_count db_alice = user_count db_example + 1
  /\ (forall name pwd s0, create_user name pwd s0 <> Raise IntegrityError).
Proof.
  split; [vm_compute; reflexivity|].
  apply (create_user_twice db_example db_alice "alice" "pw1" "pw2").
  vm_compute. reflexivity.
Defined.

(** The seed user changes the password on the example store. *)
Lemma change_password_frame_witness :
  exists rows',
    change_password 1 "s3cret" db_example =
      Ok (tt, Db (Some (UsersTable rows' 1)) (transactions db_example))
    /\ Forall2 (fun u u' =>
                  u_id u' = u_id u /\ u_username u' = u_username u
                  /\ (u_id u <> 1 -> u' = u)
                  /\ (u_id u = 1 -> u_password u' = hash_pwd "s3cret"))
               [User 1 "admin" (hash_pwd "admin")] rows'
    /\ (NoDup (map u_id [User 1 "admin" (hash_pwd "admin")]) ->
        forall u v, In u [User 1 "admin" (hash_pwd "admin")] ->
                    In v [User 1 "admin" (hash_pwd "admin")] ->
                    u_id u = 1 -> u_id v = 1 -> u = v)
    /\ (~ In 1 (map u_id [User 1 "admin" (hash_pwd "admin")]) ->
        change_password 1 "s3cret" db_example = Ok (tt, db_example)).
Proof.
  apply (change_password_frame db_example
           (UsersTable [User 1 "admin" (hash_pwd "admin")] 1) 1 "s3cret").
  reflexivity.
Defined.

(** [Admin] is accepted beside [admin] on the example store. *)
Lemma create_user_case_sensitive_witness :
  In "admin" (usernames db_example)
  /\ case_variant "admin" "Admin" = true
  /\ ~ In "Admin" (usernames db_example)
  /\ (exists i,
         create_user "Admin" "pw" db_example =
           Ok (true, Db (Some (UsersTable
                                 ([User 1 "admin" (hash_pwd "admin")]
                                    ++ [User i "Admin" (hash_pwd "pw")]) i))
                        (transactions db_example))
         /\ ~ In i (map u_id [User 1 "admin" (hash_pwd "admin")])).
Proof.
  assert (Hin : In "admin" (usernames db_example)) by (simpl; auto).
  assert (Hcase : case_variant "admin" "Admin" = true) by (vm_compute; reflexivity).
  assert (Hfree : ~ In "Admin" (usernames db_example))
    by (simpl; intros [H|[]]; discriminate H).
  split; [exact Hin|]. split; [exact Hcase|]. split; [exact Hfree|].
  exact (proj1 (create_user_case_sensitive db_example
                  (UsersTable [User 1 "admin" (hash_pwd "admin")] 1)
                  "admin" "Admin" "pw" eq_refl Hin Hcase Hfree)).
Defined.



(** A user without rows cannot delete the seed user's transaction 1. *)
Lemma delete_tx_scoped_witness :
  delete_tx 2 1 db_example = Ok (tt, db_example).
Proof.
  destruct (delete_tx_scoped db_example
              (TxTable true
                 [Tx 1 "2024-01-15" "salary" 1000%float (Some 1);
                  Tx 2 "2024-01-20" "rent" (-200)%float (Some 1);
                  Tx 3 "2024-02-01" "bonus" 500%float (Some 1)] 3)
              2 1 eq_refl eq_refl)
    as [rows' [_ [_ H]]].
  apply H. simpl. intros r [<-|[<-|[<-|[]]]]; simpl; intros _; discriminate.
Defined.

(** The legacy store is migrated and its two rows are the seed user's. *)
Lemma ensure_schema_backfills_witness :
  exists s',
    ensure_schema db_legacy = Ok (tt, s')
    /\ transactions s' =
         Some (TxTable true
                 [Tx 1 "2024-01-15" "salary" 1000%float (Some 1);
                  Tx 2 "2023-12-31" "gift" 50%float (Some 1)] 2)
    /\ users s' = Some (UsersTable [User 1 "admin" (hash_pwd "admin")] 1)
    /\ exists df,
        fetch_tx pd_nat_text 1 s' = Ok (df, s')
        /\ forall r,
            In r [Tx 1 "2024-01-15" "salary" 1000%float None;
                  Tx 2 "2023-12-31" "gift" 50%float None] ->
            exists f, In f df
                      /\ kept_columns f = (t_id r, t_category r, t_amount r, Some 1).
Proof.
  destruct (ensure_schema_backfills pd_nat_text db_legacy
              (TxTable false
                 [Tx 1 "2024-01-15" "salary" 1000%float None;
                  Tx 2 "2023-12-31" "gift" 50%float None] 2)
              Examples.pd_nat_text_ok eq_refl eq_refl)
    as [s' [H1 [H2 [H3 [H4 _]]]]].
  exists s'. split; [exact H1|]. split; [exact H2|]. split; [exact (H3 eq_refl)|].
  exact (H4 eq_refl).
Defined.



(* ================================================================== *)
(** ** The calls, one by one and in sequence *)
(* ================================================================== *)

Module Calls.

Lemma add_tx_eq user_id d category amount s t :
  transactions s = Some t ->
  tx_has_user_id t = true ->
  add_tx user_id d category amount s =
    Ok (tt, Db (users s)
               (Some (TxTable true
                        (tx_rows t
                           ++ [Tx (next_rowid t_id (tx_rows t) (tx_seq t)) (isoformat d)
                                  category amount (Some user_id)])
                        (next_rowid t_id (tx_rows t) (tx_seq t))))).
Proof.
  intros Ht Hcol. unfold add_tx, insert_tx. rewrite Ht, Hcol. reflexivity.
Qed.

Lemma delete_tx_eq user_id tx_id s t :
  transactions s = Some t ->
  tx_has_user_id t = true ->
  delete_tx user_id tx_id s =
    Ok (tt, Db (users s)
               (Some (TxTable true
                        (filter (fun r => negb ((t_id r =? tx_id) && owned_by user_id r))
                           (tx_rows t))
                        (tx_seq t)))).
Proof.
  intros Ht Hcol. unfold delete_tx, delete_where_id_user. rewrite Ht, Hcol. reflexivity.
Qed.


Lemma max_rowid_le {A} (id : A -> Z) rows bound :
  0 <= bound -> Forall (fun r => id r <= bound) rows -> max_rowid id rows <= bound.
Proof.
  intros Hb H. induction H as [|r rows Hr _ IH]; simpl; lia.
Qed.

Lemma next_rowid_above {A} (id : A -> Z) rows seq :
  1 <= next_rowid id rows seq
  /\ seq < next_rowid id rows seq
  /\ Forall (fun r => id r < next_rowid id rows seq) rows.
Proof.
  unfold next_rowid.
  assert (H0 : 0 <= max_rowid id rows).
  { induction rows as [|r rows IH]; simpl; lia. }
  split; [lia|]. split; [lia|].
  rewrite Forall_forall. intros r Hr. pose proof (max_rowid_ge id rows r Hr). lia.
Qed.


End Calls.

(** X1: with the [users] table in place and its ids distinct,
    [get_username] leaves the store alone and returns the name stored under
    the id, or ["unknown"] when no user has it. *)
Theorem get_username_spec (s : db) (t : users_table) (user_id : Z) :
  users s = Some t ->
  NoDup (map u_id (users_rows t)) ->
  exists name,
    get_username user_id s = Ok (name, s)
    /\ (forall u, In u (users_rows t) -> u_id u = user_id -> name = u_username u)
    /\ (~ In user_id (map u_id (users_rows t)) -> name = "unknown").
Proof.
  intros Hu Hnd. unfold get_username, bind, select_username, ret. rewrite Hu.
  destruct (find _ (users_rows t)) as [v|] eqn:Hfind; simpl.
  - destruct (find_some _ _ Hfind) as [Hin Hid]. apply Z.eqb_eq in Hid.
    exists (u_username v). split; [reflexivity|]. split.
    + intros u Hu' E. f_equal. apply (NoDup_map_eq u_id (users_rows t)); congruence.
    + intro Hno. exfalso. apply Hno. rewrite <- Hid. apply in_map. exact Hin.
  - exists "unknown". split; [reflexivity|]. split; [|reflexivity].
    intros u Hu' E. pose proof (find_none _ _ Hfind u Hu') as F. simpl in F.
    apply Z.eqb_neq in F. contradiction.
Qed.

(** X2: on the migrated table, with the dates of the user's rows
    canonical, as [add_tx] writes them: after [add_tx] for that user with a
    day of the calendar, whenever [fetch_tx] returns, its frame is made of
    the user's stored rows and one more row, which has a new id, the ISO
    text of the date, its month, the category, the amount and the user; it
    is the frame [fetch_tx] returned before, if it did, with that row. *)
Theorem add_tx_then_fetch (pd : pandas) (s : db) (t : tx_table) (user_id : Z) (d : date)
    (category : string) (amount : float) :
  pandas_ok pd ->
  transactions s = Some t ->
  tx_has_user_id t = true ->
  Forall (fun r => owned_by user_id r = true -> canonical_date (t_date r) = true)
    (tx_rows t) ->
  valid_date d = true ->
  exists s1 i,
    add_tx user_id d category amount s = Ok (tt, s1)
    /\ ~ In i (map t_id (tx_rows t))
    /\ forall df1 s2,
        fetch_tx pd user_id s1 = Ok (df1, s2) ->
        s2 = s1
        /\ Permutation df1
             (Row i (Some (isoformat d)) category amount (Some user_id)
                  (Some (period_str d))
              :: map frame_row_of (filter (owned_by user_id) (tx_rows t)))
        /\ forall df s0,
            fetch_tx pd user_id s = Ok (df, s0) ->
            Permutation df1
              (Row i (Some (isoformat d)) category amount (Some user_id)
                   (Some (period_str d)) :: df).
Proof.
  intros Hok Ht Hcol Hcan Hv.
  set (i := next_rowid t_id (tx_rows t) (tx_seq t)).
  set (new := Tx i (isoformat d) category amount (Some user_id)).
  exists (Db (users s) (Some (TxTable true (tx_rows t ++ [new]) i))), i.
  split; [apply Calls.add_tx_eq; assumption|].
  split; [apply next_rowid_fresh|].
  intros df1 s2 H.
  assert (Hown : owned_by user_id new = true) by (unfold owned_by; simpl; apply Z.eqb_refl).
  assert (Hcan1 : Forall (fun r => owned_by user_id r = true ->
                                   canonical_date (t_date r) = true) (tx_rows t ++ [new])).
  { apply Forall_app. split; [exact Hcan|]. constructor; [|constructor].
    intros _. apply DateText.canonical_isoformat. exact Hv. }
  destruct (Frame.fetch_tx_canonical pd user_id
              (Db (users s) (Some (TxTable true (tx_rows t ++ [new]) i)))
              (TxTable true (tx_rows t ++ [new]) i)
              df1 s2 Hok eq_refl Hcan1 H) as [-> ->].
  cbn [tx_rows].
  assert (Enew : frame_row_of new
                 = Row i (Some (isoformat d)) category amount (Some user_id)
                       (Some (period_str d))).
  { unfold frame_row_of, new. cbn [t_id t_date t_category t_amount t_user_id].
    rewrite (DateText.parse_iso_isoformat d Hv). reflexivity. }
  assert (P : Permutation
                (map frame_row_of (order_by_date (filter (owned_by user_id) (tx_rows t ++ [new]))))
                (frame_row_of new :: map frame_row_of (filter (owned_by user_id) (tx_rows t)))).
  { rewrite <- map_cons. apply Permutation_map.
    rewrite Ordering.order_by_date_perm, filter_app. simpl. rewrite Hown.
    rewrite Permutation_app_comm. reflexivity. }
  rewrite Enew in P.
  split; [reflexivity|]. split; [exact P|].
  intros df s0 H0.
  destruct (Frame.fetch_tx_canonical pd user_id s t df s0 Hok Ht Hcan H0) as [_ ->].
  rewrite P. constructor. apply Permutation_map. symmetry.
  apply Ordering.order_by_date_perm.
Qed.

(** X3: rowids of transactions are not reused. On the migrated table a new
    transaction gets an id above every id in the table and above the
    counter, and after any [delete_tx], of that very row or of another, the
    next transaction gets the id that follows it. *)
Theorem add_tx_ids_not_reused (s : db) (t : tx_table)
    (u1 u2 u3 tx_id : Z) (d1 d2 : date) (c1 c2 : string) (a1 a2 : float) :
  transactions s = Some t ->
  tx_has_user_id t = true ->
  exists i s1 s2 s3,
    add_tx u1 d1 c1 a1 s = Ok (tt, s1)
    /\ all_tx s1 = (tx_rows t ++ [Tx i (isoformat d1) c1 a1 (Some u1)])%list
    /\ Forall (fun r => t_id r < i) (tx_rows t)
    /\ tx_seq t < i
    /\ delete_tx u2 tx_id s1 = Ok (tt, s2)
    /\ add_tx u3 d2 c2 a2 s2 = Ok (tt, s3)
    /\ all_tx s3 = (all_tx s2 ++ [Tx (i + 1) (isoformat d2) c2 a2 (Some u3)])%list.
Proof.
  intros Ht Hcol.
  set (i := next_rowid t_id (tx_rows t) (tx_seq t)).
  set (rows1 := (tx_rows t ++ [Tx i (isoformat d1) c1 a1 (Some u1)])%list).
  set (rows2 := filter (fun r => negb ((t_id r =? tx_id) && owned_by u2 r)) rows1).
  destruct (Calls.next_rowid_above t_id (tx_rows t) (tx_seq t)) as [H1 [Hseq Hlt]].
  fold i in H1, Hseq, Hlt.
  assert (Hnext : next_rowid t_id rows2 i = i + 1).
  { unfold next_rowid.
    assert (Hle : max_rowid t_id rows2 <= i).
    { apply Calls.max_rowid_le; [lia|]. rewrite Forall_forall. intros r Hr.
      apply filter_In in Hr. destruct Hr as [Hr _]. unfold rows1 in Hr.
      apply in_app_iff in Hr. destruct Hr as [Hr|[<-|[]]]; [|simpl; lia].
      rewrite Forall_forall in Hlt. specialize (Hlt r Hr). lia. }
    lia. }
  exists i, (Db (users s) (Some (TxTable true rows1 i))),
    (Db (users s) (Some (TxTable true rows2 i))),
    (Db (users s)
        (Some (TxTable true (rows2 ++ [Tx (i + 1) (isoformat d2) c2 a2 (Some u3)]) (i + 1)))).
  split; [apply Calls.add_tx_eq; assumption|].
  split; [reflexivity|]. split; [exact Hlt|]. split; [exact Hseq|].
  split; [exact (Calls.delete_tx_eq u2 tx_id (Db (users s) (Some (TxTable true rows1 i)))
                   (TxTable true rows1 i) eq_refl eq_refl)|].
  split; [|reflexivity].
  rewrite (Calls.add_tx_eq u3 d2 c2 a2 (Db (users s) (Some (TxTable true rows2 i)))
             (TxTable true rows2 i) eq_refl eq_refl).
  cbn [tx_rows tx_seq users]. rewrite Hnext. reflexivity.
Qed.

(** X4: on the migrated table a second [delete_tx] of the same id by the
    same user changes nothing more; afterwards no row of that id belongs to
    the user; and with distinct ids in the table at most one row is gone. *)
Theorem delete_tx_once (s : db) (t : tx_table) (user_id tx_id : Z) :
  transactions s = Some t ->
  tx_has_user_id t = true ->
  exists s1,
    delete_tx user_id tx_id s = Ok (tt, s1)
    /\ delete_tx user_id tx_id s1 = Ok (tt, s1)
    /\ (forall r, In r (all_tx s1) -> t_id r = tx_id -> t_user_id r <> Some user_id)
    /\ (NoDup (map t_id (tx_rows t)) ->
        (List.length (tx_rows t) <= S (List.length (all_tx s1)))%nat).
Proof.
  intros Ht Hcol.
  set (keep := fun r => negb ((t_id r =? tx_id) && owned_by user_id r)).
  exists (Db (users s) (Some (TxTable true (filter keep (tx_rows t)) (tx_seq t)))).
  split; [apply Calls.delete_tx_eq; assumption|]. split; [|split].
  - rewrite (Calls.delete_tx_eq user_id tx_id
               (Db (users s) (Some (TxTable true (filter keep (tx_rows t)) (tx_seq t))))
               (TxTable true (filter keep (tx_rows t)) (tx_seq t)) eq_refl eq_refl).
    cbn [tx_rows tx_seq users]. fold keep.
    replace (filter keep (filter keep (tx_rows t))) with (filter keep (tx_rows t));
      [reflexivity|].
    symmetry. apply forallb_filter_id. apply forallb_forall. intros r Hr.
    apply filter_In in Hr. tauto.
  - cbn [all_tx transactions tx_rows]. intros r Hr Hid Hown.
    apply filter_In in Hr. destruct Hr as [_ Hk]. unfold keep, owned_by in Hk.
    rewrite Hown in Hk. subst tx_id. rewrite !Z.eqb_refl in Hk. discriminate.
  - cbn [all_tx transactions tx_rows]. intro Hnd.
    induction (tx_rows t) as [|r rows IH]; simpl; [lia|].
    inversion Hnd as [|? ? Hr Hnd']; subst.
    destruct (keep r) eqn:Hk; simpl; [specialize (IH Hnd'); lia|].
    assert (Hall : filter keep rows = rows).
    { apply forallb_filter_id. apply forallb_forall. intros r' Hr'.
      unfold keep in *. apply negb_false_iff, andb_true_iff in Hk.
      destruct Hk as [Hk _]. apply Z.eqb_eq in Hk.
      destruct (Z.eqb_spec (t_id r') tx_id) as [E|_]; [|reflexivity].
      exfalso. apply Hr. rewrite Hk, <- E. apply in_map. exact Hr'. }
    rewrite Hall. lia.
Qed.


Module Lookup.

Lemma find_snoc {A} (f : A -> bool) (l : list A) (x : A) :
  find f (l ++ [x]) =
    match find f l with
    | Some y => Some y
    | None => if f x then Some x else None
    end.
Proof.
  induction l as [|y l IH]; simpl; [reflexivity|].
  destruct (f y); [reflexivity | exact IH].
Qed.

Lemma find_map_same {A} (f : A -> bool) (g : A -> A) (l : list A) :
  (forall u, f (g u) = f u) -> find f (map g l) = option_map g (find f l).
Proof.
  intro H. induction l as [|y l IH]; simpl; [reflexivity|].
  rewrite H. destruct (f y); [reflexivity | exact IH].
Qed.

Lemma find_absent {A} (f : A -> bool) (l : list A) :
  (forall u, In u l -> f u = false) -> find f l = None.
Proof.
  intro H. induction l as [|y l IH]; simpl; [reflexivity|].
  rewrite (H y) by (left; reflexivity). apply IH. intros u Hu. apply H. right. exact Hu.
Qed.

(** Deleting rows leaves the remaining rowids distinct. *)
Lemma distinct_ids_filter {A} (id : A -> Z) (keep : A -> bool) (rows : list A) :
  NoDup (map id rows) -> NoDup (map id (filter keep rows)).
Proof.
  intro Hnd. induction rows as [|r rows IH]; simpl in *; [constructor|].
  inversion Hnd as [|? ? Hr Hrows]; subst.
  destruct (keep r); simpl; [|auto].
  constructor; [|auto]. intro Hin. apply Hr.
  apply in_map_iff in Hin. destruct Hin as [z [E Hz]].
  apply filter_In in Hz. rewrite <- E. apply in_map. tauto.
Qed.

End Lookup.

(** X6: a user just created can log in. When [create_user] returns [True]
    on a well-formed [users] table, [authenticate] with the same name and
    password returns the new user's id, which is positive and was not in
    the table, [get_username] of that id returns the name, and
    [authenticate] under every other name answers as before. *)
Theorem create_user_then_authenticate (s s1 : db) (t : users_table) (name pwd : string) :
  users s = Some t ->
  users_wf t ->
  create_user name pwd s = Ok (true, s1) ->
  exists i,
    authenticate name pwd s1 = Ok (Some i, s1)
    /\ 1 <= i
    /\ ~ In i (map u_id (users_rows t))
    /\ get_username i s1 = Ok (name, s1)
    /\ forall name' pwd',
        name' <> name ->
        value (authenticate name' pwd' s1) = value (authenticate name' pwd' s).
Proof.
  intros Hu _ Hc. pose proof (Accounts.create_user_cases name pwd s) as C.
  rewrite Hu in C. destruct (username_taken name (users_rows t)) eqn:Hfree; [congruence|].
  rewrite C in Hc. injection Hc as <-.
  set (i := next_rowid u_id (users_rows t) (users_seq t)).
  exists i.
  assert (Hnone : find (fun u => String.eqb (u_username u) name) (users_rows t) = None).
  { apply Lookup.find_absent. intros u Hin. apply String.eqb_neq. intro E.
    apply Accounts.username_taken_false in Hfree. apply Hfree. rewrite <- E.
    apply in_map. exact Hin. }
  assert (Hfresh : ~ In i (map u_id (users_rows t))) by apply next_rowid_fresh.
  split; [|split; [|split; [|split]]].
  - unfold authenticate, bind, select_id_password, ret. cbn [users users_rows].
    rewrite Lookup.find_snoc, Hnone. cbn [u_username]. rewrite String.eqb_refl. cbn.
    rewrite String.eqb_refl. reflexivity.
  - apply (Calls.next_rowid_above u_id (users_rows t) (users_seq t)).
  - exact Hfresh.
  - unfold get_username, bind, select_username, ret. cbn [users users_rows].
    rewrite Lookup.find_snoc.
    rewrite Lookup.find_absent.
    + cbn [u_id]. rewrite Z.eqb_refl. reflexivity.
    + intros u Hin. apply Z.eqb_neq. intro E. apply Hfresh. rewrite <- E.
      apply in_map. exact Hin.
  - intros name' pwd' Hne.
    unfold authenticate, bind, select_id_password, ret. cbn [users users_rows].
    rewrite Hu, Lookup.find_snoc. cbn [u_username].
    destruct (find (fun u => String.eqb (u_username u) name') (users_rows t))
      as [[j n h]|]; cbn.
    + destruct (String.eqb h (hash_pwd pwd')); reflexivity.
    + destruct (String.eqb_spec name name'); [congruence | reflexivity].
Qed.

(** X7: after [change_password] for a stored user, on a well-formed
    [users] table, [authenticate] accepts the user's name with the new
    password, refuses it with every password of another digest, and answers
    under every other name as before. *)
Theorem change_password_then_authenticate (s : db) (t : users_table) (usr : user)
    (new_pwd : string) :
  users s = Some t ->
  users_wf t ->
  In usr (users_rows t) ->
  exists s1,
    change_password (u_id usr) new_pwd s = Ok (tt, s1)
    /\ authenticate (u_username usr) new_pwd s1 = Ok (Some (u_id usr), s1)
    /\ (forall old,
           hash_pwd old <> hash_pwd new_pwd ->
           authenticate (u_username usr) old s1 = Ok (None, s1))
    /\ forall name' pwd',
        name' <> u_username usr ->
        value (authenticate name' pwd' s1) = value (authenticate name' pwd' s).
Proof.
  intros Hu [Hnames Hids] Hin.
  set (set := fun u => if u_id u =? u_id usr
                       then User (u_id u) (u_username u) (hash_pwd new_pwd) else u).
  exists (Db (Some (UsersTable (map set (users_rows t)) (users_seq t))) (transactions s)).
  assert (Hfind : forall name,
             find (fun u => String.eqb (u_username u) name) (map set (users_rows t))
             = option_map set (find (fun u => String.eqb (u_username u) name) (users_rows t))).
  { intro name. apply Lookup.find_map_same. intro u. unfold set.
    destruct (u_id u =? u_id usr); reflexivity. }
  assert (Hme : find (fun u => String.eqb (u_username u) (u_username usr)) (users_rows t)
                = Some usr)
    by (apply Accounts.find_username_unique; auto).
  split; [|split; [|split]].
  - unfold change_password, update_password. rewrite Hu. reflexivity.
  - unfold authenticate, bind, select_id_password, ret. cbn [users users_rows].
    rewrite Hfind, Hme. unfold set. cbn. rewrite Z.eqb_refl. cbn.
    rewrite String.eqb_refl. reflexivity.
  - intros old Hold.
    unfold authenticate, bind, select_id_password, ret. cbn [users users_rows].
    rewrite Hfind, Hme. unfold set. cbn. rewrite Z.eqb_refl. cbn.
    destruct (String.eqb_spec (hash_pwd new_pwd) (hash_pwd old)); [congruence | reflexivity].
  - intros name' pwd' Hne.
    unfold authenticate, bind, select_id_password, ret. cbn [users users_rows].
    rewrite Hu, Hfind.
    destruct (find (fun u => String.eqb (u_username u) name') (users_rows t))
      as [v|] eqn:Hv; cbn; [|reflexivity].
    destruct (find_some _ _ Hv) as [Hvin Hvn]. apply String.eqb_eq in Hvn.
    assert (Hid : u_id v <> u_id usr).
    { intro E. apply Hne. rewrite <- Hvn. f_equal.
      apply (NoDup_map_eq u_id (users_rows t)); assumption. }
    unfold set. apply Z.eqb_neq in Hid. rewrite Hid.
    destruct (String.eqb (u_password v) (hash_pwd pwd')); reflexivity.
Qed.

(* ================================================================== *)
(** ** What every call keeps *)
(* ================================================================== *)

Module Invariant.

Lemma ids_ok_snoc {A} (id : A -> Z) rows seq (r : A) :
  id r = next_rowid id rows seq -> ids_ok id rows -> ids_ok id (rows ++ [r]).
Proof.
  intros E [Hnd Hpos]. split.
  - rewrite map_app. simpl. apply NoDup_snoc; [exact Hnd|].
    rewrite E. apply next_rowid_fresh.
  - apply Forall_app. split; [exact Hpos|]. constructor; [|constructor].
    rewrite E. apply (Calls.next_rowid_above id rows seq).
Qed.

Lemma ids_ok_filter {A} (id : A -> Z) (p : A -> bool) rows :
  ids_ok id rows -> ids_ok id (filter p rows).
Proof.
  intros [Hnd Hpos]. split; [apply Lookup.distinct_ids_filter; exact Hnd|].
  rewrite Forall_forall in *. intros r Hr. apply filter_In in Hr. apply Hpos. tauto.
Qed.

Lemma ids_ok_map {A} (id : A -> Z) (g : A -> A) rows :
  (forall r, id (g r) = id r) -> ids_ok id rows -> ids_ok id (map g rows).
Proof.
  intros Hg [Hnd Hpos]. split.
  - rewrite map_map. rewrite (map_ext _ id) by exact Hg. exact Hnd.
  - rewrite Forall_map. eapply Forall_impl; [|exact Hpos]. intros r Hr. rewrite Hg. exact Hr.
Qed.

Lemma ensure_schema_inv s s' : db_inv s -> ensure_schema s = Ok (tt, s') -> db_inv s'.
Proof.
  intros [Hu Ht] H. rewrite Schema.ensure_schema_eq in H. injection H as <-.
  split; cbn [users transactions].
  - destruct (users s) as [[[|u l] q]|]; cbn.
    + split; [repeat constructor; simpl; tauto|].
      apply (ids_ok_snoc u_id [] q); [reflexivity | split; constructor].
    + exact Hu.
    + split; [repeat constructor; simpl; tauto|].
      split; repeat constructor; simpl; tauto || lia.
  - destruct (transactions s) as [[[|] rows q]|]; cbn.
    + exact Ht.
    + apply ids_ok_map; [reflexivity | exact Ht].
    + split; constructor.
Qed.

Lemma create_user_inv name pwd b s s' :
  db_inv s -> create_user name pwd s = Ok (b, s') -> db_inv s'.
Proof.
  intros [Hu Ht] H. pose proof (Accounts.create_user_cases name pwd s) as C.
  destruct (users s) as [t|] eqn:E; [|congruence].
  destruct (username_taken name (users_rows t)) eqn:Hfree; rewrite C in H;
    injection H as <- <-.
  - split; [rewrite E; exact Hu | exact Ht].
  - split; cbn [users transactions]; [|exact Ht]. cbn [users_rows].
    destruct Hu as [Hn Hi]. split.
    + rewrite map_app. simpl. apply NoDup_snoc; [exact Hn|].
      apply Accounts.username_taken_false. exact Hfree.
    + apply (ids_ok_snoc u_id _ (users_seq t)); [reflexivity | exact Hi].
Qed.

Lemma change_password_inv user_id pwd s s' :
  db_inv s -> change_password user_id pwd s = Ok (tt, s') -> db_inv s'.
Proof.
  intros [Hu Ht]. unfold change_password, update_password.
  destruct (users s) as [t|]; [|discriminate]. intros [= <-].
  split; cbn [users transactions users_rows]; [|exact Ht].
  destruct Hu as [Hn Hi]. split.
  - rewrite map_map. erewrite map_ext; [exact Hn|].
    intro u. cbn. destruct (u_id u =? user_id); reflexivity.
  - apply ids_ok_map; [|exact Hi]. intro u. destruct (u_id u =? user_id); reflexivity.
Qed.

Lemma add_tx_inv user_id d category amount s s' :
  db_inv s -> add_tx user_id d category amount s = Ok (tt, s') -> db_inv s'.
Proof.
  intros [Hu Ht]. unfold add_tx, insert_tx.
  destruct (transactions s) as [t|]; [|discriminate].
  destruct (tx_has_user_id t); [|discriminate]. cbn [negb]. intros [= <-].
  split; cbn [users transactions tx_rows]; [exact Hu|].
  apply (ids_ok_snoc t_id _ (tx_seq t)); [reflexivity | exact Ht].
Qed.

Lemma delete_tx_inv user_id tx_id s s' :
  db_inv s -> delete_tx user_id tx_id s = Ok (tt, s') -> db_inv s'.
Proof.
  intros [Hu Ht]. unfold delete_tx, delete_where_id_user.
  destruct (transactions s) as [t|]; [|discriminate].
  destruct (tx_has_user_id t); [|discriminate]. cbn [negb]. intros [= <-].
  split; cbn [users transactions tx_rows]; [exact Hu|].
  apply ids_ok_filter. exact Ht.
Qed.

End Invariant.

(** X8: every call keeps the constraints of the store: usernames stay
    distinct, and the ids of users and of transactions stay distinct and
    positive, through any sequence of [ensure_schema], [create_user],
    [change_password], [add_tx] and [delete_tx]. *)
Theorem calls_keep_invariant (s s' : db) :
  db_inv s -> calls s s' -> db_inv s'.
Proof.
  intros Hinv Hcalls. induction Hcalls as [s|s s1 s2 _ IH Hcall]; [exact Hinv|].
  specialize (IH Hinv).
  destruct Hcall as [a b H|name pwd ok a b H|uid pwd a b H|uid d c amt a b H|uid i a b H].
  - eapply Invariant.ensure_schema_inv; eassumption.
  - eapply Invariant.create_user_inv; eassumption.
  - eapply Invariant.change_password_inv; eassumption.
  - eapply Invariant.add_tx_inv; eassumption.
  - eapply Invariant.delete_tx_inv; eassumption.
Qed.

(** X9: [ensure_schema] only adds. Every user row stays as it is; every
    transaction row keeps its id, date, category and amount, in the same
    order, and the counter stays; a table that has the [user_id] column
    already is not touched at all. *)
Theorem ensure_schema_keeps_data (s : db) :
  exists s1,
    ensure_schema s = Ok (tt, s1)
    /\ (forall u, In u (all_users s) -> In u (all_users s1))
    /\ map tx_data (all_tx s1) = map tx_data (all_tx s)
    /\ (forall t, transactions s = Some t ->
                  exists t1, transactions s1 = Some t1 /\ tx_seq t1 = tx_seq t
                             /\ (tx_has_user_id t = true -> t1 = t))
    /\ (forall t, users s = Some t -> users_rows t <> [] -> users s1 = Some t).
Proof.
  eexists. split; [apply Schema.ensure_schema_eq|].
  unfold all_users, all_tx. cbn [users transactions].
  split; [|split; [|split]].
  - destruct (users s) as [[[|u l] q]|]; cbn; tauto.
  - destruct (transactions s) as [[[|] rows q]|]; cbn; try reflexivity.
    rewrite map_map. reflexivity.
  - intros t ->. destruct t as [[|] rows q]; cbn; eexists; repeat split; discriminate.
  - intros t -> Hne. destruct t as [[|u l] q]; cbn; [contradiction | reflexivity].
Qed.

(* ================================================================== *)
(** ** The pages *)
(* ================================================================== *)

Module Pages.

Lemma ready_shape s :
  ready s = true ->
  exists u l q rows q',
    s = Db (Some (UsersTable (u :: l) q)) (Some (TxTable true rows q')).
Proof.
  destruct s as [[[[|u l] q]|] [[[|] rows q']|]]; try discriminate.
  intros _. repeat eexists.
Qed.


Lemma ensure_schema_ready s :
  exists s1, ensure_schema s = Ok (tt, s1) /\ ready s1 = true.
Proof.
  eexists. split; [apply Schema.ensure_schema_eq|].
  destruct s as [[[[|u l] q]|] [[[|] rows q']|]]; reflexivity.
Qed.

Lemma write_by_ready user_id s s' : write_by user_id s s' -> ready s = true -> ready s' = true.
Proof.
  intros H Hr. destruct (ready_shape s Hr) as [u [l [q [rows [q' ->]]]]].
  destruct H as [name pwd s s' H|pwd s s' H|d c amt s s' _ H|i s s' H].
  - pose proof (Accounts.create_user_cases name pwd s) as C.
    destruct (users s) as [t|] eqn:Hu; [|congruence].
    destruct (username_taken name (users_rows t)); [congruence|].
    rewrite C in H. injection H as <-. unfold ready in *. rewrite Hu in Hr.
    cbn [users transactions users_rows].
    destruct (transactions s) as [tt0|]; [|destruct (users_rows t); discriminate].
    destruct (users_rows t); [discriminate | exact Hr].
  - unfold change_password, update_password in H. unfold ready in *.
    destruct (users s) as [t|]; [|discriminate]. injection H as <-.
    cbn [users transactions users_rows].
    destruct (transactions s); [|discriminate].
    destruct (users_rows t); [discriminate | exact Hr].
  - unfold add_tx, insert_tx in H. unfold ready in *.
    destruct (users s) as [t|]; [|discriminate].
    destruct (transactions s) as [t0|]; [|discriminate].
    destruct (tx_has_user_id t0); [|discriminate]. injection H as <-.
    cbn [users transactions]. destruct (users_rows t); [discriminate | reflexivity].
  - unfold delete_tx, delete_where_id_user in H. unfold ready in *.
    destruct (users s) as [t|]; [|discriminate].
    destruct (transactions s) as [t0|]; [|discriminate].
    destruct (tx_has_user_id t0); [|discriminate]. injection H as <-.
    cbn [users transactions]. destruct (users_rows t); [discriminate | reflexivity].
Qed.

(** On a ready store [fetch_tx] returns, or pandas did not read a date. *)
Lemma fetch_tx_ready pd user_id s :
  ready s = true ->
  (exists df, fetch_tx pd user_id s = Ok (df, s)) \/ fetch_tx pd user_id s = Raise ValueError.
Proof.
  intro Hr. destruct (ready_shape s Hr) as [u [l [q [rows [q' ->]]]]].
  rewrite (Frame.fetch_tx_eq pd user_id
             (Db (Some (UsersTable (u :: l) q)) (Some (TxTable true rows q')))
             (TxTable true rows q') eq_refl eq_refl).
  destruct (order_by_date _) as [|r rest]; [left; eexists; reflexivity|].
  destruct (date_column pd _) as [dates|]; [|right; reflexivity].
  destruct (month_column pd dates); [left; eexists; reflexivity | right; reflexivity].
Qed.

Lemma change_password_ready user_id pwd s :
  ready s = true -> exists s1, change_password user_id pwd s = Ok (tt, s1).
Proof.
  intro Hr. destruct (ready_shape s Hr) as [u [l [q [rows [q' ->]]]]].
  eexists. reflexivity.
Qed.

Lemma create_user_ready name pwd s :
  ready s = true ->
  create_user name pwd s = Ok (false, s)
  \/ exists s1, create_user name pwd s = Ok (true, s1).
Proof.
  intro Hr. destruct (ready_shape s Hr) as [u [l [q [rows [q' ->]]]]].
  pose proof (Accounts.create_user_cases name pwd
                (Db (Some (UsersTable (u :: l) q)) (Some (TxTable true rows q')))) as C.
  cbn [users users_rows] in C.
  destruct (username_taken name (u :: l)); [left | right; eexists]; exact C.
Qed.

Lemma add_tx_ready user_id d category amount s :
  ready s = true -> exists s1, add_tx user_id d category amount s = Ok (tt, s1).
Proof.
  intro Hr. destruct (ready_shape s Hr) as [u [l [q [rows [q' ->]]]]].
  eexists. reflexivity.
Qed.

Lemma delete_tx_ready user_id tx_id s :
  ready s = true -> exists s1, delete_tx user_id tx_id s = Ok (tt, s1).
Proof.
  intro Hr. destruct (ready_shape s Hr) as [u [l [q [rows [q' ->]]]]].
  eexists. reflexivity.
Qed.

Lemma authenticate_ready username password s :
  ready s = true -> exists r, authenticate username password s = Ok (r, s).
Proof.
  intro Hr. destruct (ready_shape s Hr) as [u [l [q [rows [q' ->]]]]].
  unfold authenticate, bind, select_id_password, ret. cbn [users].
  destruct (option_map _ _) as [[i h]|]; [|eexists; reflexivity].
  destruct (String.eqb h (hash_pwd password)); eexists; reflexivity.
Qed.

(** The rows part of a run: it raises only for the dates, and writes only
    the deletion asked for. *)
Lemma budget_ui_rows_effect pd a user_id ss notes s out s' :
  ready s = true ->
  budget_ui_rows pd a user_id ss notes s = (out, s') ->
  (forall e, out = Raise e -> date_error pd e)
  /\ (s' = s \/ exists tx_id, a = Delete tx_id /\ delete_tx user_id tx_id s = Ok (tt, s')).
Proof.
  intros Hr. unfold budget_ui_rows, pbind, run_call, pret.
  destruct (fetch_tx_ready pd user_id s Hr) as [[df H]|H]; rewrite H.
  2:{ intros [= <- <-]. split; [intros e [= <-]; left; reflexivity | left; reflexivity]. }
  destruct df as [|r df].
  { intros [= <- <-]. split; [discriminate | left; reflexivity]. }
  destruct (current_month (month_totals (r :: df))) as [sv|e0] eqn:Hc.
  2:{ destruct (Rollup.current_month_raises _ _ _ _ _ _ _ H Hc) as [-> [Hna _]].
      intros [= <- <-]. split; [|left; reflexivity].
      intros e [= <-]. right. split; [reflexivity | exact Hna]. }
  destruct a; try (intros [= <- <-]; split; [discriminate | left; reflexivity]).
  destruct (existsb _ _); [|intros [= <- <-]; split; [discriminate | left; reflexivity]].
  destruct (delete_tx_ready user_id tx_id s Hr) as [s1 Hd]. rewrite Hd.
  intros [= <- <-]. split; [discriminate|]. right. exists tx_id. auto.
Qed.

(** A run of [budget_ui] on a ready store: it raises only for the dates,
    and makes at most one write, for the user logged in. *)
Lemma budget_ui_run_effect pd a user_id ss s out s' :
  ready s = true ->
  budget_ui_run pd a user_id ss s = (out, s') ->
  (forall e, out = Raise e -> date_error pd e)
  /\ (s' = s \/ write_by user_id s s').
Proof.
  intros Hr.
  assert (Hrows : forall a0 ss0 notes s0 o s1,
             ready s0 = true ->
             budget_ui_rows pd a0 user_id ss0 notes s0 = (o, s1) ->
             (forall e, o = Raise e -> date_error pd e)
             /\ (s1 = s0 \/ write_by user_id s0 s1)).
  { intros a0 ss0 notes s0 o s1 Hr0 H0.
    destruct (budget_ui_rows_effect _ _ _ _ _ _ _ _ Hr0 H0) as [He [->|[i [_ Hd]]]].
    - split; [exact He | left; reflexivity].
    - split; [exact He | right; eapply write_delete_tx; exact Hd]. }
  assert (Hafter : forall a0 ss0 notes s0 o s1,
             (forall i, a0 <> Delete i) ->
             write_by user_id s s0 ->
             budget_ui_rows pd a0 user_id ss0 notes s0 = (o, s1) ->
             (forall e, o = Raise e -> date_error pd e)
             /\ (s1 = s \/ write_by user_id s s1)).
  { intros a0 ss0 notes s0 o s1 Hnd Hw H0.
    pose proof (write_by_ready _ _ _ Hw Hr) as Hr0.
    destruct (budget_ui_rows_effect _ _ _ _ _ _ _ _ Hr0 H0) as [He [->|[i [E _]]]].
    - split; [exact He | right; exact Hw].
    - exfalso. exact (Hnd i E). }
  unfold budget_ui_run, account_settings_ui, add_button, pbind, pret, run_call.
  destruct (show_settings ss); destruct a; cbv beta iota;
    try (intro H; eapply Hrows; eassumption).
  - (* UpdatePassword, panel open *)
    destruct (nonempty pwd1 && String.eqb pwd1 pwd2); cbv beta iota;
      [|intro H; eapply Hrows; eassumption].
    destruct (change_password_ready user_id pwd1 s Hr) as [s1 Hc]. rewrite Hc. cbv beta iota.
    intro H. apply (fun n w => Hafter _ _ _ _ _ _ n w H);
      [intro; discriminate | eapply write_change_password; exact Hc].
  - (* CreateUser, panel open *)
    destruct (nonempty new_user && String.eqb new_pwd1 new_pwd2); cbv beta iota;
      [|intro H; eapply Hrows; eassumption].
    destruct (create_user_ready new_user new_pwd1 s Hr) as [Hc|[s1 Hc]]; rewrite Hc; cbv beta iota; intro H.
    + eapply Hrows; eassumption.
    + apply (fun n w => Hafter _ _ _ _ _ _ n w H);
        [intro; discriminate | eapply write_create_user; exact Hc].
  - (* Logout, panel open *)
    intros [= <- <-]. split; [discriminate | left; reflexivity].
  - (* Add, panel open *)
    destruct (nonempty category && negb (PrimFloat.eqb amount 0)) eqn:Hg; cbv beta iota;
      [|intro H; eapply Hrows; eassumption].
    destruct (add_tx_ready user_id d category amount s Hr) as [s1 Ha]. rewrite Ha. cbv beta iota.
    intros [= <- <-]. split; [discriminate|].
    right. eapply write_add_tx; eassumption.
  - (* Add, panel closed *)
    destruct (nonempty category && negb (PrimFloat.eqb amount 0)) eqn:Hg; cbv beta iota;
      [|intro H; eapply Hrows; eassumption].
    destruct (add_tx_ready user_id d category amount s Hr) as [s1 Ha]. rewrite Ha. cbv beta iota.
    intros [= <- <-]. split; [discriminate|].
    right. eapply write_add_tx; eassumption.
Qed.

(** A run of [main]: the schema is brought up first; the login page writes
    nothing; the budget page makes at most one write, for the user logged
    in; and nothing but the dates makes the run raise. *)
Lemma main_effect pd a ss s out s' :
  main pd a ss s = (out, s') ->
  exists s1,
    ensure_schema s = Ok (tt, s1)
    /\ ready s1 = true
    /\ match logged_in ss with
       | None => s' = s1 /\ exists r, out = Ok r
       | Some (user_id, _) =>
           (s' = s1 \/ write_by user_id s1 s')
           /\ forall e, out = Raise e -> date_error pd e
       end.
Proof.
  destruct (ensure_schema_ready s) as [s1 [He Hr]]. intro H.
  exists s1. split; [exact He|]. split; [exact Hr|].
  unfold main, pbind, run_call in H. rewrite He in H. cbv beta iota in H.
  destruct (logged_in ss) as [[user_id name]|].
  - apply and_comm. destruct a; eapply budget_ui_run_effect; eassumption.
  - assert (Hlogin : forall u p b o s2,
               login_ui u p b ss s1 = (o, s2) -> s2 = s1 /\ exists r, o = Ok r).
    { intros u p b o s2. unfold login_ui, pbind, run_call, pret.
      destruct b; [|intros [= <- <-]; split; [reflexivity | eexists; reflexivity]].
      destruct (authenticate_ready u p s1 Hr) as [r Ha]. rewrite Ha.
      destruct r as [i|]; [destruct (i =? 0)|];
        intros [= <- <-]; split; try reflexivity; eexists; reflexivity. }
    destruct a; eapply Hlogin; exact H.
Qed.


Lemma write_by_entered user_id s s' :
  write_by user_id s s' ->
  Forall (fun r => entered r = true) (all_tx s) ->
  Forall (fun r => entered r = true) (all_tx s').
Proof.
  intros H Hall. unfold all_tx in *.
  destruct H as [name pwd s s' H|pwd s s' H|d c amt s s' Hg H|i s s' H].
  - pose proof (Accounts.create_user_cases name pwd s) as C.
    destruct (users s) as [t|]; [|congruence].
    destruct (username_taken name (users_rows t)); [congruence|].
    rewrite C in H. injection H as <-. exact Hall.
  - unfold change_password, update_password in H.
    destruct (users s); [|discriminate]. injection H as <-. exact Hall.
  - unfold add_tx, insert_tx in H.
    destruct (transactions s) as [t|]; [|discriminate].
    destruct (tx_has_user_id t); [|discriminate]. injection H as <-.
    cbn [transactions tx_rows]. apply Forall_app. split; [exact Hall|].
    constructor; [exact Hg | constructor].
  - unfold delete_tx, delete_where_id_user in H.
    destruct (transactions s) as [t|]; [|discriminate].
    destruct (tx_has_user_id t); [|discriminate]. injection H as <-.
    cbn [transactions tx_rows]. rewrite Forall_forall in *.
    intros r Hr. apply filter_In in Hr. apply Hall. tauto.
Qed.

Lemma ensure_schema_entered s s1 :
  ensure_schema s = Ok (tt, s1) ->
  Forall (fun r => entered r = true) (all_tx s) ->
  Forall (fun r => entered r = true) (all_tx s1).
Proof.
  rewrite Schema.ensure_schema_eq. intros [= <-]. unfold all_tx. cbn [transactions].
  destruct (transactions s) as [[[|] rows q]|]; cbn; auto.
  intro H. rewrite Forall_map. exact H.
Qed.

End Pages.

(** X10: [login_ui], with the [users] table well formed. A submitted form
    logs in, and asks for a rerun, exactly when a stored user has that name,
    the digest of that password, and an id other than zero, which every id
    the program allocates is; otherwise the session stays as it was and the
    page reports invalid credentials. The store is not written either way. *)
Theorem login_ui_spec (s : db) (t : users_table) (ss : session) (username password : string) :
  users s = Some t ->
  users_wf t ->
  (forall usr,
      In usr (users_rows t) -> u_username usr = username ->
      u_password usr = hash_pwd password -> u_id usr <> 0 ->
      login_ui username password true ss s
      = (Ok (Session (Some (u_id usr, username)) (show_settings ss), Rerun), s))
  /\ ((forall usr,
          In usr (users_rows t) -> u_username usr = username ->
          u_password usr = hash_pwd password -> u_id usr = 0) ->
      login_ui username password true ss s = (Ok (ss, LoginPage [InvalidCredentials]), s))
  /\ login_ui username password false ss s = (Ok (ss, LoginPage []), s).
Proof.
  intros Hu [Hnames _]. split; [|split]; [| |reflexivity].
  - intros usr Hin Hname Hpw Hid.
    unfold login_ui, pbind, run_call, pret, authenticate, bind, select_id_password, ret.
    rewrite Hu, (Accounts.find_username_unique _ _ _ Hnames Hin Hname). cbn.
    rewrite Hpw, String.eqb_refl. apply Z.eqb_neq in Hid. rewrite Hid. reflexivity.
  - intro Hnone.
    unfold login_ui, pbind, run_call, pret, authenticate, bind, select_id_password, ret.
    rewrite Hu.
    destruct (find _ (users_rows t)) as [v|] eqn:Hfind; cbn; [|reflexivity].
    destruct (find_some _ _ Hfind) as [Hin Hname]. apply String.eqb_eq in Hname.
    destruct (String.eqb_spec (u_password v) (hash_pwd password)) as [Hpw|_]; [|reflexivity].
    rewrite (Hnone v Hin Hname Hpw). reflexivity.
Qed.


(** The second case of X11 occurs: with a pandas that leaves a cell
    without a date missing, the run of a user whose only row has an empty
    date ends in [IndexError], and writes nothing. *)
Lemma main_all_undated :
  main pd_nat_missing View (Session (Some (1, "admin")) false) db_undated
  = (Raise IndexError, db_undated).
Proof. vm_compute. reflexivity. Qed.


(** X13: the sidebar's check holds of everything [main] writes: when every
    stored transaction has a category and an amount other than zero, so
    does every one after a run of [main], whatever the action. *)
Theorem main_keeps_entered (pd : pandas) (a : action) (ss : session) (s s' : db)
    (out : result (session * ui)) :
  Forall (fun r => entered r = true) (all_tx s) ->
  main pd a ss s = (out, s') ->
  Forall (fun r => entered r = true) (all_tx s').
Proof.
  intros Hall H. destruct (Pages.main_effect _ _ _ _ _ _ H) as [s1 [He [_ Hm]]].
  pose proof (Pages.ensure_schema_entered _ _ He Hall) as H1.
  destruct (logged_in ss) as [[user_id name]|].
  - destruct Hm as [[->|Hw] _]; [exact H1|].
    eapply Pages.write_by_entered; eassumption.
  - destruct Hm as [-> _]. exact H1.
Qed.

Module Latest.

Lemma authenticate_after_create name pwd s t :
  users s = Some t ->
  username_taken name (users_rows t) = false ->
  exists s1 i,
    create_user name pwd s = Ok (true, s1)
    /\ authenticate name pwd s1 = Ok (Some i, s1).
Proof.
  intros Hu Hfree. pose proof (Accounts.create_user_cases name pwd s) as C.
  rewrite Hu, Hfree in C. do 2 eexists. split; [exact C|].
  unfold authenticate, bind, select_id_password, ret. cbn [users users_rows].
  rewrite Lookup.find_snoc, Lookup.find_absent.
  - cbn [u_username]. rewrite String.eqb_refl. cbn. rewrite String.eqb_refl. reflexivity.
  - intros u Hin. apply String.eqb_neq. intro E.
    apply Accounts.username_taken_false in Hfree. apply Hfree. rewrite <- E.
    apply in_map. exact Hin.
Qed.

End Latest.

(** X14: the settings panel and empty passwords. A password change with an
    empty first field, or with two fields that differ, writes nothing. A new
    user with a name that is not empty and not taken is created with two
    empty password fields, and [authenticate] then accepts that name with
    the empty password. *)
Theorem account_settings_empty_password (s : db) (t : users_table) (user_id : Z)
    (ss : session) (name : string) :
  users s = Some t ->
  name <> "" ->
  ~ In name (usernames s) ->
  (forall pwd2,
      account_settings_ui (UpdatePassword "" pwd2) user_id ss s
      = (Ok (ss, Some [PasswordsDontMatch]), s))
  /\ (forall pwd1 pwd2,
         pwd1 <> pwd2 ->
         account_settings_ui (UpdatePassword pwd1 pwd2) user_id ss s
         = (Ok (ss, Some [PasswordsDontMatch]), s))
  /\ exists s1 i,
      account_settings_ui (CreateUser name "" "") user_id ss s
      = (Ok (ss, Some [UserCreated name]), s1)
      /\ authenticate name "" s1 = Ok (Some i, s1).
Proof.
  intros Hu Hname Hfree. split; [|split].
  - intro pwd2. reflexivity.
  - intros pwd1 pwd2 Hne. unfold account_settings_ui.
    apply String.eqb_neq in Hne. rewrite Hne, andb_false_r. reflexivity.
  - unfold usernames in Hfree. rewrite Hu in Hfree.
    apply Accounts.username_taken_false in Hfree.
    destruct (Latest.authenticate_after_create name "" s t Hu Hfree) as [s1 [i [Hc Ha]]].
    exists s1, i. split; [|exact Ha].
    unfold account_settings_ui, pbind, run_call, pret, nonempty.
    apply String.eqb_neq in Hname. rewrite Hname. cbn [negb andb String.eqb].
    rewrite Hc. reflexivity.
Qed.

(** X15: the metric of the dashboard is that of the month of the latest
    transaction. On the migrated table, for a user whose rows have
    canonical dates from the year 1000 on, a frame [fetch_tx] returns ends
    in a row no other row is dated after, and the last bucket of the
    roll-up, whose total [budget_ui] shows, is the bucket of that row's
    month, with the compensated sum of the amounts of that month. *)
Theorem current_month_is_latest (pd : pandas) (s : db) (t : tx_table) (user_id : Z)
    (full : list frame_row) :
  pandas_ok pd ->
  transactions s = Some t ->
  tx_has_user_id t = true ->
  Forall (fun r => owned_by user_id r = true -> four_digit_year (t_date r) = true)
    (tx_rows t) ->
  filter (owned_by user_id) (tx_rows t) <> [] ->
  fetch_tx pd user_id s = Ok (full, s) ->
  exists df last month totals savings,
    full = (df ++ [last])%list
    /\ Forall (fun r => not_after r last) df
    /\ r_Month last = Some month
    /\ budget_ui pd user_id s = Ok (Dashboard totals savings, s)
    /\ iloc_last totals = Ok (month, savings)
    /\ savings = sum_amounts (amounts_of month (df ++ [last])).
Proof.
  intros Hok Ht Hcol Hfour Hne Hf.
  set (rows := order_by_date (filter (owned_by user_id) (tx_rows t))).
  assert (Hperm : Permutation rows (filter (owned_by user_id) (tx_rows t)))
    by apply Ordering.order_by_date_perm.
  assert (Hrows4 : forall r, In r rows -> four_digit_year (t_date r) = true).
  { intros r Hr. eapply Permutation_in in Hr; [|exact Hperm].
    apply filter_In in Hr. destruct Hr as [Hr Hown].
    rewrite Forall_forall in Hfour. auto. }
  assert (Hcan : Forall (fun r => owned_by user_id r = true ->
                                  canonical_date (t_date r) = true) (tx_rows t)).
  { eapply Forall_impl; [|exact Hfour]. intros r H Hown.
    destruct (DateText.four_digit_year_spells _ (H Hown)) as [d [_ [_ [_ [_ Hc]]]]].
    exact Hc. }
  destruct (Frame.fetch_tx_canonical pd user_id s t full s Hok Ht Hcan Hf) as [_ Efull].
  fold rows in Efull.
  assert (Hrne : rows <> []).
  { intro E. apply Hne. apply Permutation_nil. rewrite <- E. exact Hperm. }
  destruct (exists_last Hrne) as [pre [lr Erows]].
  assert (Hsorted : StronglySorted by_date rows) by apply Ordering.order_by_date_sorted.
  rewrite Erows in Hsorted. pose proof (sorted_last_greatest _ _ _ Hsorted) as Hlast.
  assert (Hlr : In lr rows) by (rewrite Erows; apply in_app_iff; simpl; auto).
  destruct (DateText.four_digit_year_spells _ (Hrows4 lr Hlr))
    as [dl [Pl [Vl [Yl [Il _]]]]].
  assert (Hbefore : forall r dr, In r rows -> parse_iso (t_date r) = Some dr ->
                                 date_le dr dl = true).
  { intros r dr Hr Pr. rewrite <- (DateText.leb_iso_dates _ _ _ _ Pr Pl).
    rewrite Erows in Hr. apply in_app_iff in Hr. destruct Hr as [Hr|[<-|[]]].
    - rewrite Forall_forall in Hlast. exact (Hlast r Hr).
    - unfold String.leb. rewrite TextOrder.compare_refl. reflexivity. }
  assert (Hmonth : r_Month (frame_row_of lr) = Some (period_str dl)).
  { unfold frame_row_of. cbn [r_Month]. rewrite Pl. reflexivity. }
  assert (Hex : exists f, In f full /\ r_Month f <> None).
  { exists (frame_row_of lr). split; [rewrite Efull; apply in_map; exact Hlr|].
    rewrite Hmonth. discriminate. }
  destruct (Rollup.current_month_last full Hex) as [pre' [k [sv [Etot [Hc Hpre]]]]].
  assert (Hk : k = period_str dl).
  { assert (Hin : In (Some k) (map r_Month full)).
    { apply Rollup.group_sum_keys. rewrite <- Rollup.month_totals_keys.
      rewrite Etot, map_app, in_app_iff. simpl. auto. }
    apply in_map_iff in Hin. destruct Hin as [f [Ef Hfin]].
    rewrite Efull in Hfin. apply in_map_iff in Hfin. destruct Hfin as [r [<- Hr]].
    destruct (DateText.four_digit_year_spells _ (Hrows4 r Hr))
      as [dr [Pr [Vr [Yr _]]]].
    unfold frame_row_of in Ef. cbn [r_Month] in Ef. rewrite Pr in Ef.
    injection Ef as <-.
    assert (Hlk : In (period_str dl) (map fst (month_totals full))).
    { rewrite Rollup.month_totals_keys. apply Rollup.group_sum_keys.
      rewrite <- Hmonth, Efull. apply in_map, in_map. exact Hlr. }
    rewrite Etot, map_app, in_app_iff in Hlk. simpl in Hlk.
    destruct Hlk as [Hp|[Hp|[]]]; [|exact Hp].
    exfalso. apply in_map_iff in Hp. destruct Hp as [b [Eb Hb]].
    rewrite Forall_forall in Hpre. specialize (Hpre b Hb). rewrite Eb in Hpre.
    apply (DateText.period_str_lt dl dr Vl Vr Yl Yr) in Hpre.
    rewrite (DateText.date_le_month dr dl (Hbefore r dr Hr Pr)) in Hpre. discriminate. }
  exists (map frame_row_of pre), (frame_row_of lr), (period_str dl), (month_totals full), sv.
  assert (Esplit : full = (map frame_row_of pre ++ [frame_row_of lr])%list).
  { rewrite Efull, Erows, map_app. reflexivity. }
  split; [exact Esplit|]. split; [|split; [exact Hmonth|split; [|split]]].
  - rewrite Forall_map, Forall_forall. intros r Hr.
    assert (Hrr : In r rows) by (rewrite Erows; apply in_app_iff; auto).
    destruct (DateText.four_digit_year_spells _ (Hrows4 r Hrr))
      as [dr [Pr [Vr [_ [Ir _]]]]].
    exists dr, dl. unfold frame_row_of. cbn [r_date]. rewrite Ir, Il.
    repeat split; try assumption. exact (Hbefore r dr Hrr Pr).
  - unfold budget_ui, bind. rewrite Hf. destruct full as [|f0 rest].
    + destruct (map frame_row_of pre); discriminate.
    + cbv beta iota. rewrite Hc. reflexivity.
  - rewrite Etot, iloc_last_snoc, Hk. reflexivity.
  - rewrite <- Esplit, <- Hk. apply (Rollup.month_totals_In full k sv).
    rewrite Etot, in_app_iff. simpl. auto.
Qed.

(* ================================================================== *)
(** ** The properties of the calls and pages on the example stores *)
(* ================================================================== *)

Lemma get_username_spec_witness : get_username 1 db_example = Ok ("admin", db_example).
Proof.
  destruct (get_username_spec db_example
              (UsersTable [User 1 "admin" (hash_pwd "admin")] 1) 1 eq_refl
              (proj2 users_wf_example))
    as [name [H [Hname _]]].
  rewrite H. rewrite (Hname (User 1 "admin" (hash_pwd "admin")) (or_introl eq_refl) eq_refl).
  reflexivity.
Defined.

Lemma canonical_dates_example :
  Forall (fun r => owned_by 1 r = true -> four_digit_year (t_date r) = true)
    [Tx 1 "2024-01-15" "salary" 1000%float (Some 1);
     Tx 2 "2024-01-20" "rent" (-200)%float (Some 1);
     Tx 3 "2024-02-01" "bonus" 500%float (Some 1)].
Proof. repeat constructor. Qed.

Lemma add_tx_then_fetch_witness :
  exists s1 i,
    add_tx 1 (Date 2024 3 5) "food" (-50)%float db_example = Ok (tt, s1)
    /\ forall df1 s2,
        fetch_tx pd_nat_text 1 s1 = Ok (df1, s2) ->
        Permutation df1
          (Row i (Some "2024-03-05") "food" (-50)%float (Some 1) (Some "2024-03")
           :: map frame_row_of
                [Tx 1 "2024-01-15" "salary" 1000%float (Some 1);
                 Tx 2 "2024-01-20" "rent" (-200)%float (Some 1);
                 Tx 3 "2024-02-01" "bonus" 500%float (Some 1)]).
Proof.
  assert (Hcan : Forall (fun r => owned_by 1 r = true -> canonical_date (t_date r) = true)
                   [Tx 1 "2024-01-15" "salary" 1000%float (Some 1);
                    Tx 2 "2024-01-20" "rent" (-200)%float (Some 1);
                    Tx 3 "2024-02-01" "bonus" 500%float (Some 1)])
    by (repeat constructor).
  destruct (add_tx_then_fetch pd_nat_text db_example
              (TxTable true
                 [Tx 1 "2024-01-15" "salary" 1000%float (Some 1);
                  Tx 2 "2024-01-20" "rent" (-200)%float (Some 1);
                  Tx 3 "2024-02-01" "bonus" 500%float (Some 1)] 3)
              1 (Date 2024 3 5) "food" (-50)%float
              Examples.pd_nat_text_ok eq_refl eq_refl Hcan eq_refl)
    as [s1 [i [H1 [_ H2]]]].
  exists s1, i. split; [exact H1|].
  intros df1 s2 H. exact (proj1 (proj2 (H2 df1 s2 H))).
Defined.

Lemma add_tx_ids_not_reused_witness :
  exists i s1 s2 s3,
    add_tx 1 (Date 2024 3 5) "food" (-50)%float db_example = Ok (tt, s1)
    /\ delete_tx 1 4 s1 = Ok (tt, s2)
    /\ add_tx 1 (Date 2024 3 6) "fuel" (-30)%float s2 = Ok (tt, s3)
    /\ all_tx s3 = (all_tx s2 ++ [Tx (i + 1) "2024-03-06" "fuel" (-30)%float (Some 1)])%list.
Proof.
  destruct (add_tx_ids_not_reused db_example
              (TxTable true
                 [Tx 1 "2024-01-15" "salary" 1000%float (Some 1);
                  Tx 2 "2024-01-20" "rent" (-200)%float (Some 1);
                  Tx 3 "2024-02-01" "bonus" 500%float (Some 1)] 3)
              1 1 1 4 (Date 2024 3 5) (Date 2024 3 6) "food" "fuel"
              (-50)%float (-30)%float eq_refl eq_refl)
    as [i [s1 [s2 [s3 [H1 [_ [_ [_ [H2 [H3 H4]]]]]]]]]].
  exists i, s1, s2, s3. repeat split; assumption.
Defined.

Lemma delete_tx_once_witness :
  exists s1,
    delete_tx 1 2 db_example = Ok (tt, s1) /\ delete_tx 1 2 s1 = Ok (tt, s1).
Proof.
  destruct (delete_tx_once db_example
              (TxTable true
                 [Tx 1 "2024-01-15" "salary" 1000%float (Some 1);
                  Tx 2 "2024-01-20" "rent" (-200)%float (Some 1);
                  Tx 3 "2024-02-01" "bonus" 500%float (Some 1)] 3)
              1 2 eq_refl eq_refl)
    as [s1 [H1 [H2 _]]].
  exists s1. split; assumption.
Defined.


Lemma create_user_then_authenticate_witness :
  exists i, authenticate "alice" "pw1" db_alice = Ok (Some i, db_alice) /\ 1 <= i.
Proof.
  assert (Hc : create_user "alice" "pw1" db_example = Ok (true, db_alice))
    by (vm_compute; reflexivity).
  destruct (create_user_then_authenticate db_example db_alice
              (UsersTable [User 1 "admin" (hash_pwd "admin")] 1) "alice" "pw1"
              eq_refl users_wf_example Hc)
    as [i [H1 [H2 _]]].
  exists i. split; assumption.
Defined.

Lemma change_password_then_authenticate_witness :
  exists s1,
    change_password 1 "s3cret" db_example = Ok (tt, s1)
    /\ authenticate "admin" "s3cret" s1 = Ok (Some 1, s1).
Proof.
  destruct (change_password_then_authenticate db_example
              (UsersTable [User 1 "admin" (hash_pwd "admin")] 1)
              (User 1 "admin" (hash_pwd "admin")) "s3cret"
              eq_refl users_wf_example (or_introl eq_refl))
    as [s1 [H1 [H2 _]]].
  exists s1. split; assumption.
Defined.

Lemma calls_keep_invariant_witness : db_inv db_fresh.
Proof.
  assert (He : ensure_schema empty_db = Ok (tt, db_fresh)) by (vm_compute; reflexivity).
  apply (calls_keep_invariant empty_db db_fresh).
  - split; exact I.
  - eapply calls_step; [apply calls_refl | apply call_ensure_schema; exact He].
Defined.

Lemma login_ui_spec_witness :
  login_ui "admin" "admin" true (Session None false) db_example
  = (Ok (Session (Some (1, "admin")) false, Rerun), db_example).
Proof.
  assert (Hid : 1 <> 0) by discriminate.
  exact (proj1 (login_ui_spec db_example
                  (UsersTable [User 1 "admin" (hash_pwd "admin")] 1)
                  (Session None false) "admin" "admin" eq_refl users_wf_example)
           (User 1 "admin" (hash_pwd "admin")) (or_introl eq_refl) eq_refl eq_refl Hid).
Defined.



Lemma entered_example : Forall (fun r => entered r = true) (all_tx db_example).
Proof. repeat constructor. Qed.

Lemma main_keeps_entered_witness :
  Forall (fun r => entered r = true)
    (all_tx (snd (main pd_nat_text (Add (Date 2024 3 5) "food" 0%float)
                    (Session (Some (1, "admin")) false) db_example))).
Proof.
  exact (main_keeps_entered pd_nat_text (Add (Date 2024 3 5) "food" 0%float)
           (Session (Some (1, "admin")) false) db_example _ _ entered_example
           (surjective_pairing
              (main pd_nat_text (Add (Date 2024 3 5) "food" 0%float)
                 (Session (Some (1, "admin")) false) db_example))).
Defined.

Lemma account_settings_empty_password_witness :
  exists s1 i,
    account_settings_ui (CreateUser "bob" "" "") 1 (Session (Some (1, "admin")) true)
      db_example
    = (Ok (Session (Some (1, "admin")) true, Some [UserCreated "bob"]), s1)
    /\ authenticate "bob" "" s1 = Ok (Some i, s1).
Proof.
  assert (Hname : "bob" <> "") by discriminate.
  assert (Hfree : ~ In "bob" (usernames db_example))
    by (simpl; intros [H|[]]; discriminate H).
  exact (proj2 (proj2 (account_settings_empty_password db_example
                         (UsersTable [User 1 "admin" (hash_pwd "admin")] 1) 1
                         (Session (Some (1, "admin")) true) "bob"
                         eq_refl Hname Hfree))).
Defined.

Lemma current_month_is_latest_witness :
  exists df last totals,
    fetch_tx pd_nat_text 1 db_example = Ok ((df ++ [last])%list, db_example)
    /\ Forall (fun r => not_after r last) df
    /\ budget_ui pd_nat_text 1 db_example = Ok (Dashboard totals 500%float, db_example)
    /\ iloc_last totals = Ok ("2024-02", 500%float).
Proof.
  assert (Hne : filter (owned_by 1)
                  [Tx 1 "2024-01-15" "salary" 1000%float (Some 1);
                   Tx 2 "2024-01-20" "rent" (-200)%float (Some 1);
                   Tx 3 "2024-02-01" "bonus" 500%float (Some 1)] <> [])
    by discriminate.
  assert (Hf : fetch_tx pd_nat_text 1 db_example
               = Ok (map frame_row_of
                       [Tx 1 "2024-01-15" "salary" 1000%float (Some 1);
                        Tx 2 "2024-01-20" "rent" (-200)%float (Some 1);
                        Tx 3 "2024-02-01" "bonus" 500%float (Some 1)], db_example))
    by (vm_compute; reflexivity).
  destruct (current_month_is_latest pd_nat_text db_example
              (TxTable true
                 [Tx 1 "2024-01-15" "salary" 1000%float (Some 1);
                  Tx 2 "2024-01-20" "rent" (-200)%float (Some 1);
                  Tx 3 "2024-02-01" "bonus" 500%float (Some 1)] 3)
              1 _ Examples.pd_nat_text_ok eq_refl eq_refl canonical_dates_example Hne Hf)
    as [df [last [month [totals [savings [H0 [H1 [_ [H2 [H3 _]]]]]]]]]].
  assert (Hb : budget_ui pd_nat_text 1 db_example
               = Ok (Dashboard [("2024-01", 800%float); ("2024-02", 500%float)] 500%float,
                     db_example)) by (vm_compute; reflexivity).
  rewrite Hb in H2.
  assert (Et : totals = [("2024-01", 800%float); ("2024-02", 500%float)]) by congruence.
  assert (Es : savings = 500%float) by congruence.
  exists df, last, totals.
  split; [rewrite <- H0; exact Hf|]. split; [exact H1|].
  split; [rewrite Et; exact Hb|].
  assert (Em : month = "2024-02").
  { rewrite Et in H3. cbv in H3. congruence. }
  rewrite H3, Em, Es. reflexivity.
Defined.

(** X16: the default credentials of the login page. On every store without
    a user, with the [users] table absent or empty, [ensure_schema] leaves
    a store on which [authenticate "admin" "admin"] returns the id of the
    one user there is, a positive id, so that the first [main] run with
    these credentials logs in. *)
Theorem default_credentials (pd : pandas) (s : db) (ss : session) :
  user_count s = 0 ->
  logged_in ss = None ->
  exists s1 i,
    ensure_schema s = Ok (tt, s1)
    /\ all_users s1 = [User i "admin" (hash_pwd "admin")]
    /\ 1 <= i
    /\ authenticate "admin" "admin" s1 = Ok (Some i, s1)
    /\ main pd (SubmitLogin "admin" "admin") ss s
       = (Ok (Session (Some (i, "admin")) (show_settings ss), Rerun), s1).
Proof.
  intros Hcount Hout.
  assert (Hseed : exists i, seeded (users s) = UsersTable [User i "admin" (hash_pwd "admin")] i
                            /\ 1 <= i).
  { unfold user_count in Hcount. destruct (users s) as [[[|u l] q]|]; cbn in *.
    - eexists. split; [reflexivity|]. apply (Calls.next_rowid_above u_id [] q).
    - lia.
    - exists 1. split; [reflexivity | lia]. }
  destruct Hseed as [i [Hseed Hpos]].
  exists (Db (Some (seeded (users s))) (Some (migrated (transactions s)))), i.
  assert (Hauth : authenticate "admin" "admin"
                    (Db (Some (seeded (users s))) (Some (migrated (transactions s))))
                  = Ok (Some i, Db (Some (seeded (users s)))
                                   (Some (migrated (transactions s))))).
  { unfold authenticate, bind, select_id_password, ret. cbn [users].
    rewrite Hseed. cbn. rewrite String.eqb_refl. reflexivity. }
  split; [apply Schema.ensure_schema_eq|]. split; [|split; [exact Hpos|split; [exact Hauth|]]].
  - unfold all_users. cbn [users]. rewrite Hseed. reflexivity.
  - unfold main, pbind, run_call. rewrite Schema.ensure_schema_eq, Hout.
    unfold login_ui, pbind, run_call, pret. rewrite Hauth.
    replace (i =? 0) with false by (symmetry; apply Z.eqb_neq; lia). reflexivity.
Qed.

Lemma default_credentials_witness :
  exists s1 i,
    ensure_schema empty_db = Ok (tt, s1)
    /\ main pd_nat_text (SubmitLogin "admin" "admin") (Session None false) empty_db
       = (Ok (Session (Some (i, "admin")) false, Rerun), s1).
Proof.
  destruct (default_credentials pd_nat_text empty_db (Session None false) eq_refl eq_refl)
    as [s1 [i [H1 [_ [_ [_ H2]]]]]].
  exists s1, i. split; assumption.
Defined.
